(** * alpaca-lora-gpt: the fine-tuning script [finetune_gpt_neox_20b_belle.py]

    A shallow embedding of the logic that is original to the script:
    the start-up assertion, the batch/world-size configuration, prompt
    templating, tokenization with label masking, the train/validation
    split and the adapter-only save.  Calls into third-party libraries
    (tokenizer, datasets, PEFT, trainer) are inputs of the model: what
    they return is read from a [World] record, and what the script asks
    of them is recorded as a trace of events.  Console output and the
    count of trainable parameters are left out. *)

From Stdlib Require Import ZArith Lia Ascii.
From stdpp Require Import base option list strings gmap.

Local Open Scope Z_scope.

(** ** Python values and exceptions *)

Module Py.

Inductive exn : Type :=
| KeyError (key : string)
| AssertionError (msg : string)
| ValueError
| TypeError
| ZeroDivisionError.

Inductive result (A : Type) : Type :=
| Ok (a : A)
| Raise (e : exn).
Arguments Ok {A} a.
Arguments Raise {A} e.

Global Instance result_ret : MRet result := @Ok.
Global Instance result_bind : MBind result := fun A B k r =>
  match r with
  | Ok a => k a
  | Raise e => Raise e
  end.

Definition is_ok {A} (r : result A) : bool :=
  match r with Ok _ => true | Raise _ => false end.

(** [d[k]] on a dict: [KeyError] when the key is missing. *)
Definition getitem {V} (d : gmap string V) (k : string) : result V :=
  match d !! k with
  | Some v => Ok v
  | None => Raise (KeyError k)
  end.

(** [d.get(k)]: [None] when the key is missing. *)
Definition get {V} (d : gmap string V) (k : string) : option V := d !! k.

(** [len(l)] as a Python integer. *)
Definition len {A} (l : list A) : Z := Z.of_nat (length l).

(** [[x] * n]: the empty list when [n <= 0]. *)
Definition list_mul {A} (x : A) (n : Z) : list A := replicate (Z.to_nat n) x.

(** The start of a slice: a negative bound counts from the end and is
    clamped at 0, a bound past the end is clamped at [len l]. *)
Definition slice_index {A} (l : list A) (k : Z) : nat :=
  if k <? 0 then Z.to_nat (Z.max 0 (len l + k)) else Z.to_nat k.

(** [l[k:]] *)
Definition slice_from {A} (l : list A) (k : Z) : list A :=
  drop (slice_index l k) l.

(** [l[:k]] *)
Definition slice_to {A} (l : list A) (k : Z) : list A :=
  take (slice_index l k) l.

(** [a // b] on integers: floor division, [ZeroDivisionError] on 0. *)
Definition floordiv (a b : Z) : result Z :=
  if b =? 0 then Raise ZeroDivisionError else Ok (a `div` b).

(** *** [int(s)] on a string

    The built-in is not part of the script: [read s] stands for the
    integer it reads from [s], [None] where it raises [ValueError]. *)

Definition int (read : string -> option Z) (s : string) : result Z :=
  match read s with
  | Some z => Ok z
  | None => Raise ValueError
  end.

(** *** A reader for the examples

    [ascii_decimal] reads the decimal literals of [int] written in ASCII:
    white space (tab, line feed, vertical tab, form feed, carriage return,
    space) around an optional sign and decimal digits, single underscores
    allowed between digits.  It reads nothing else; the built-in also
    accepts the digits and spaces of other scripts, and may refuse very
    long literals.  The worlds of the examples use it; no property of the
    script depends on it. *)

Definition is_space (c : Ascii.ascii) : bool :=
  let n := Ascii.nat_of_ascii c in
  ((9 <=? n) && (n <=? 13))%nat || (n =? 32)%nat.

Definition digit_of (c : Ascii.ascii) : option Z :=
  let n := Ascii.nat_of_ascii c in
  if ((48 <=? n) && (n <=? 57))%nat then Some (Z.of_nat n - 48) else None.

Fixpoint lstrip (s : list Ascii.ascii) : list Ascii.ascii :=
  match s with
  | c :: s' => if is_space c then lstrip s' else s
  | [] => []
  end.

Definition strip (s : list Ascii.ascii) : list Ascii.ascii :=
  reverse (lstrip (reverse (lstrip s))).

(** [after_digit] tells whether the previous character was a digit,
    the only place where an underscore or the end may follow. *)
Fixpoint digits (acc : Z) (after_digit : bool) (s : list Ascii.ascii) : option Z :=
  match s with
  | [] => if after_digit then Some acc else None
  | c :: s' =>
      match digit_of c with
      | Some d => digits (10 * acc + d) true s'
      | None =>
          if (Ascii.eqb c "_"%char && after_digit)%bool
          then match s' with
               | [] => None
               | c' :: _ => if digit_of c' is Some _ then digits acc false s' else None
               end
          else None
      end
  end.

Definition ascii_decimal (s : string) : option Z :=
  let body := strip (String.list_ascii_of_string s) in
  match body with
  | c :: rest =>
      if Ascii.eqb c "-"%char then Z.opp <$> digits 0 false rest
      else if Ascii.eqb c "+"%char then digits 0 false rest
      else digits 0 false body
  | [] => None
  end.

(** *** Cells of a column

    A row loaded from the dataset file has every column of the dataset.
    A cell is a string or a value of another type: [None] where a line of
    the file lacks the field, a number, a list.  Of a value that is not a
    string the script uses only the text an f-string shows for it. *)

Inductive Cell : Type :=
| Str (s : string)
| NotStr (shown : string).

Definition PyNone : Cell := NotStr "None".

Global Instance cell_eq_dec : EqDecision Cell.
Proof. solve_decision. Defined.

(** [str(c)], as an f-string renders a cell. *)
Definition render (c : Cell) : string :=
  match c with
  | Str s => s
  | NotStr shown => shown
  end.

(** [s + c] for a string [s]: [TypeError] unless [c] is a string. *)
Definition add_str (s : string) (c : Cell) : result string :=
  match c with
  | Str t => Ok (s +:+ t)
  | NotStr _ => Raise TypeError
  end.

End Py.

Import Py.

(** ** Hyperparameters (source lines 41-57) *)

Definition MICRO_BATCH_SIZE : Z := 96.
Definition BATCH_SIZE : Z := 96 * 2.
Definition EPOCHS : Z := 1.
Definition LEARNING_RATE : string := "3e-4".
Definition CUTOFF_LEN : Z := 256.
Definition LORA_R : Z := 16.
Definition LORA_ALPHA : Z := 32.
Definition LORA_DROPOUT : string := "0.05".
Definition VAL_SET_SIZE : Z := 2000.
Definition TARGET_MODULES : list string := ["query_key_value"; "xxx"].
Definition DATA_PATH : string := "Belle.train.json".
Definition OUTPUT_DIR : string := "lora-gpt-neox-20b-belle".

(** ** The tokenizer

    The tokenizer comes from [AutoTokenizer.from_pretrained]; its
    vocabulary is not part of the script.  [encode text m] stands for the
    ids it returns for [text] under [truncation=True, max_length=m]; the
    only thing assumed of it is that truncation keeps its promise.
    [pad_token_id] is an attribute the script assigns. *)

Record Tokenizer : Type := {
  encode : string -> nat -> list Z;
  encode_truncated : forall text m, (length (encode text m) <= m)%nat;
  pad_token_id : option Z;
  eos_token_id : option Z;
}.

(** [tokenizer.pad_token_id = v] *)
Definition set_pad_token_id (tk : Tokenizer) (v : Z) : Tokenizer :=
  {| encode := encode tk;
     encode_truncated := encode_truncated tk;
     pad_token_id := Some v;
     eos_token_id := eos_token_id tk |}.

Record BatchEncoding : Type := {
  be_input_ids : list Z;
  be_attention_mask : list Z;
}.

(** [tokenizer(text, truncation=True, max_length=m)], with
    [padding="max_length"] when [padding] is set: pads on the right with
    the pad token up to [m], the attention mask is 1 on the tokens of the
    text and 0 on the padding.  Padding without a pad token is an error. *)
Definition tokenizer_call (tk : Tokenizer) (text : string) (max_length : Z)
    (padding : bool) : result BatchEncoding :=
  let ids := encode tk text (Z.to_nat max_length) in
  let mask := replicate (length ids) 1 in
  if padding then
    match pad_token_id tk with
    | None => Raise ValueError
    | Some p =>
        let fill := (Z.to_nat max_length - length ids)%nat in
        Ok {| be_input_ids := ids ++ replicate fill p;
              be_attention_mask := mask ++ replicate fill 0 |}
    end
  else Ok {| be_input_ids := ids; be_attention_mask := mask |}.

(** ** Prompts and tokenized records (source lines 102-162) *)

Definition nl : string := String "010"%char EmptyString.

Definition preamble : string :=
  "Below is an instruction that describes a task. Write a response that appropriately completes the request.".

Definition indent : string := "                ".

(** A raw dataset row: a dict from column names to cells. *)
Abbreviation DataPoint := (gmap string Cell).

Definition generate_prompt (data_point : DataPoint) : result string :=
  input ← getitem data_point "input";
  target ← getitem data_point "target";
  Ok (preamble +:+ nl +:+ nl
      +:+ "### Instruction:" +:+ nl
      +:+ render input +:+ nl +:+ nl
      +:+ "### Response:" +:+ nl
      +:+ render target).

Record Tokenized : Type := {
  t_input_ids : list Z;
  t_attention_mask : list Z;
}.

Definition tokenize (tk : Tokenizer) (prompt : string) : result Tokenized :=
  result ← tokenizer_call tk prompt (CUTOFF_LEN + 1) true;
  Ok {| t_input_ids := slice_to (be_input_ids result) (-1);
        t_attention_mask := slice_to (be_attention_mask result) (-1) |}.

(** The f-string of [generate_and_tokenize_prompt]; the body of the
    function is indented by sixteen spaces inside the literal. *)
Definition user_prompt_of (input : string) : string :=
  preamble +:+ nl +:+ nl
  +:+ indent +:+ "### Instruction:" +:+ nl
  +:+ indent +:+ input +:+ nl +:+ nl
  +:+ indent +:+ "### Response:" +:+ nl
  +:+ indent.

Record Record_ : Type := {
  input_ids : list Z;
  labels : list Z;
  attention_mask : list Z;
}.

Definition generate_and_tokenize_prompt (tk : Tokenizer)
    (data_point : DataPoint) : result Record_ :=
  input ← getitem data_point "input";
  let user_prompt := user_prompt_of (render input) in
  prefix ← tokenizer_call tk user_prompt (CUTOFF_LEN + 1) false;
  let len_user_prompt_tokens := len (be_input_ids prefix) - 1 in
  target ← getitem data_point "target";
  text ← add_str user_prompt target;
  full ← tokenizer_call tk text (CUTOFF_LEN + 1) true;
  let full_tokens := slice_to (be_input_ids full) (-1) in
  Ok {| input_ids := full_tokens;
        labels := list_mul (-100) len_user_prompt_tokens
                  ++ slice_from full_tokens len_user_prompt_tokens;
        attention_mask := list_mul 1 (len full_tokens) |}.

(** A tokenizer to run the definitions on: one id per character (its
    code), cut at [m]; no pad token until the script assigns one. *)
Definition char_ids (text : string) : list Z :=
  (fun c => Z.of_nat (Ascii.nat_of_ascii c)) <$> String.list_ascii_of_string text.

Definition char_tokenizer (eos : option Z) : Tokenizer :=
  {| encode := fun text m => take m (char_ids text);
     encode_truncated := fun text m => firstn_le_length m (char_ids text);
     pad_token_id := None;
     eos_token_id := eos |}.

(** ** The start-up assertion (source lines 10-12) *)

Definition reinstall_guidance : string :=
  "LLaMA is now in HuggingFace's main branch." +:+ nl
  +:+ "Please reinstall it: pip uninstall transformers && pip install git+https://github.com/huggingface/transformers.git".

(** [assert "LlamaTokenizer" in transformers._import_structure["models.llama"], msg] *)
Definition startup_assert (import_structure : gmap string (list string))
    : result unit :=
  names ← getitem import_structure "models.llama";
  if bool_decide ("LlamaTokenizer" ∈ names) then Ok tt
  else Raise (AssertionError reinstall_guidance).

(** ** Batch sizing under the distributed world size (source lines 41-64) *)

Inductive DeviceMap : Type :=
| Auto                      (* the string "auto" *)
| OnDevice (local_rank : Z) (* the whole model on device [local_rank] *).

Record Config : Type := {
  device_map : DeviceMap;
  world_size : Z;
  ddp : bool;
  GRADIENT_ACCUMULATION_STEPS : Z;
}.

Definition configure (read : string -> option Z)
    (environ : gmap string string) : result Config :=
  steps ← floordiv BATCH_SIZE MICRO_BATCH_SIZE;
  (* int(os.environ.get("WORLD_SIZE", 1)) *)
  world_size ← match get environ "WORLD_SIZE" with
               | Some s => int read s
               | None => Ok 1
               end;
  let ddp := negb (world_size =? 1) in
  if ddp then
    (* int(os.environ.get("LOCAL_RANK") or 0): the empty string is falsy *)
    local_rank ← match get environ "LOCAL_RANK" with
                 | Some s => if String.eqb s EmptyString then Ok 0 else int read s
                 | None => Ok 0
                 end;
    steps' ← floordiv steps world_size;
    Ok {| device_map := OnDevice local_rank; world_size := world_size;
          ddp := ddp; GRADIENT_ACCUMULATION_STEPS := steps' |}
  else
    Ok {| device_map := Auto; world_size := world_size;
          ddp := ddp; GRADIENT_ACCUMULATION_STEPS := steps |}.

(** ** Trainer arguments (source lines 179-195)

    Floating-point settings are kept as the literal of the source. *)

Record TrainingArguments : Type := {
  per_device_train_batch_size : Z;
  gradient_accumulation_steps : Z;
  warmup_steps : Z;
  num_train_epochs : Z;
  learning_rate : string;
  fp16 : bool;
  logging_steps : Z;
  evaluation_strategy : string;
  save_strategy : string;
  eval_steps : option Z;
  save_steps : Z;
  output_dir : string;
  save_total_limit : Z;
  load_best_model_at_end : bool;
  ddp_find_unused_parameters : option bool;
}.

Definition training_arguments (val_set_size : Z) (cfg : Config)
    : TrainingArguments :=
  {| per_device_train_batch_size := MICRO_BATCH_SIZE;
     gradient_accumulation_steps := GRADIENT_ACCUMULATION_STEPS cfg;
     warmup_steps := 100;
     num_train_epochs := EPOCHS;
     learning_rate := LEARNING_RATE;
     fp16 := true;
     logging_steps := 20;
     evaluation_strategy := if 0 <? val_set_size then "steps" else "no";
     save_strategy := "steps";
     eval_steps := if 0 <? val_set_size then Some 200 else None;
     save_steps := 200;
     output_dir := OUTPUT_DIR;
     save_total_limit := 3;
     load_best_model_at_end := if 0 <? val_set_size then true else false;
     ddp_find_unused_parameters := if ddp cfg then Some false else None |}.

(** ** Datasets (source lines 99, 165-173)

    The [datasets] library draws a permutation of the row indices from a
    seeded generator; [permutation seed n] is that draw. *)

Record Rng : Type := {
  permutation : Z -> nat -> list nat;
  permutation_perm : forall seed n, permutation seed n ≡ₚ seq 0 n;
}.

(** [dataset.select(indices)] *)
Definition select {A} (rows : list A) (indices : list nat) : list A :=
  omap (fun i => rows !! i) indices.

(** [dataset.shuffle(seed=seed)] *)
Definition shuffle {A} (rng : Rng) (seed : Z) (rows : list A) : list A :=
  select rows (permutation rng seed (length rows)).

Record Split (A : Type) : Type := {
  split_train : list A;
  split_test : list A;
}.
Arguments split_train {A} _.
Arguments split_test {A} _.

(** [dataset.train_test_split(test_size=n, shuffle=True, seed=seed)] with
    an integer [test_size]: the first [test_size] indices of the
    permutation are the test rows, the others the train rows; a size that
    is not positive or leaves no train row is rejected. *)
Definition train_test_split {A} (rng : Rng) (rows : list A) (test_size : Z)
    (seed : Z) : result (Split A) :=
  if (0 <? test_size) && (test_size <? len rows) then
    let indices := permutation rng seed (length rows) in
    Ok {| split_test := select rows (take (Z.to_nat test_size) indices);
          split_train := select rows (drop (Z.to_nat test_size) indices) |}
  else Raise ValueError.

(** [dataset.map(f)]: each row keeps its columns and gains those [f]
    returns; an exception of [f] ends the map. *)
Fixpoint dataset_map {A B} (f : A -> result B) (rows : list A)
    : result (list (A * B)) :=
  match rows with
  | [] => Ok []
  | row :: rows' =>
      cols ← f row;
      rest ← dataset_map f rows';
      Ok ((row, cols) :: rest)
  end.

Abbreviation Row := (DataPoint * Record_)%type.

Record Datasets : Type := {
  train_data : list Row;
  val_data : option (list Row);
}.

(** [seeds] are the seeds the two unseeded [.shuffle()] calls draw from
    the process-wide generator, train first. *)
Definition build_datasets (rng : Rng) (seeds : Z * Z) (tk : Tokenizer)
    (val_set_size : Z) (rows : list DataPoint) : result Datasets :=
  if 0 <? val_set_size then
    train_val ← train_test_split rng rows val_set_size 42;
    train_data ← dataset_map (generate_and_tokenize_prompt tk)
                   (shuffle rng seeds.1 (split_train train_val));
    val_data ← dataset_map (generate_and_tokenize_prompt tk)
                 (shuffle rng seeds.2 (split_test train_val));
    Ok {| train_data := train_data; val_data := Some val_data |}
  else
    train_data ← dataset_map (generate_and_tokenize_prompt tk)
                   (shuffle rng seeds.1 rows);
    Ok {| train_data := train_data; val_data := None |}.

(** ** The adapter and its state (source lines 86-94, 200-203) *)

Record LoraConfig : Type := {
  r : Z;
  lora_alpha : Z;
  target_modules : list string;
  lora_dropout : string;
  bias : string;
  task_type : string;
}.

Definition config : LoraConfig :=
  {| r := LORA_R; lora_alpha := LORA_ALPHA; target_modules := TARGET_MODULES;
     lora_dropout := LORA_DROPOUT; bias := "none"; task_type := "CAUSAL_LM" |}.

(** [sub in s] on strings *)
Fixpoint contains (sub s : string) : bool :=
  String.prefix sub s ||
  match s with
  | EmptyString => false
  | String _ s' => contains sub s'
  end.

(** ** Parameters of the model (source lines 25-37, 76-84) *)

(** What the script reads or writes of a parameter tensor. *)
Record Param : Type := {
  numel : nat;
  requires_grad : bool;
  ndim : Z;
  dtype : string;
}.

(** [model.named_parameters()] *)
Abbreviation NamedParameters := (list (string * Param)).

Record ParameterCount : Type := {
  trainable_params : nat;
  all_param : nat;
}.

(** One turn of the loop of [print_trainable_parameters]. *)
Definition count_step (acc : ParameterCount) (entry : string * Param)
    : ParameterCount :=
  let param := entry.2 in
  let all_param := (all_param acc + numel param)%nat in
  let trainable_params :=
    if requires_grad param then (trainable_params acc + numel param)%nat
    else trainable_params acc in
  {| trainable_params := trainable_params; all_param := all_param |}.

Definition count_parameters (named_parameters : NamedParameters)
    : ParameterCount :=
  fold_left count_step named_parameters {| trainable_params := 0; all_param := 0 |}.

(** The two counts the function prints; the percentage
    [100 * trainable_params / all_param] is a float and only its division
    error is kept. *)
Definition print_trainable_parameters (named_parameters : NamedParameters)
    : result ParameterCount :=
  let counts := count_parameters named_parameters in
  if (all_param counts =? 0)%nat then Raise ZeroDivisionError else Ok counts.

(** One turn of the loop of source lines 77-84. *)
Definition freeze_parameter (is_loaded_in_8bit : bool) (name : string)
    (param : Param) : Param :=
  let param := {| numel := numel param; requires_grad := false;
                  ndim := ndim param; dtype := dtype param |} in
  if is_loaded_in_8bit then
    if (ndim param =? 1) && contains "layer_norm" name
    then {| numel := numel param; requires_grad := requires_grad param;
            ndim := ndim param; dtype := "torch.float16" |}
    else param
  else param.

(** Source lines 77-84; [is_loaded_in_8bit] is the attribute of the model,
    taken as [False] when the model has none. *)
Definition freeze_base_model (is_loaded_in_8bit : option bool)
    (named_parameters : NamedParameters) : NamedParameters :=
  (fun entry =>
     (entry.1, freeze_parameter (default false is_loaded_in_8bit) entry.1 entry.2))
  <$> named_parameters.

(** The sum of the sizes of a list of parameters. *)
Definition total_numel (params : list Param) : nat :=
  sum_list (numel <$> params).

Section Script.

(** Weights are opaque to the script. *)
Variable Tensor : Type.

Abbreviation StateDict := (gmap string Tensor).

(** PEFT's [get_peft_model_state_dict(model, state_dict)] for a LoRA
    adapter with [bias="none"]: the entries whose name mentions
    ["lora_"]. *)
Definition get_peft_model_state_dict (state_dict : StateDict) : StateDict :=
  filter (fun kv => Is_true (contains "lora_" kv.1)) state_dict.

(** The model object: its parameters, and the [state_dict] method as a
    function of the parameters the object holds when it is called. *)
Record Model : Type := {
  parameters : StateDict;
  state_dict : StateDict -> StateDict;
}.

Definition call_state_dict (model : Model) : StateDict :=
  state_dict model (parameters model).

(** Source lines 200-203: [old_state_dict] is the bound method, called
    anew by the replacement each time. *)
Definition replace_state_dict (model : Model) : Model :=
  let old_state_dict := state_dict model in
  {| parameters := parameters model;
     state_dict := fun ps => get_peft_model_state_dict (old_state_dict ps) |}.

(** What [model.save_pretrained(dir)] of a PEFT model writes as weights:
    the adapter part of [model.state_dict()]. *)
Definition saved_weights (model : Model) : StateDict :=
  get_peft_model_state_dict (call_state_dict model).

(** ** The run of the script *)

Inductive event : Type :=
| FromPretrainedModel (name : string) (load_in_8bit : bool) (dm : DeviceMap)
| FromPretrainedTokenizer (name : string)
| LoadDataset (path : string)
| TorchCompile
| Train (args : TrainingArguments) (train_dataset : list Row)
    (eval_dataset : option (list Row))
| SavePretrained (dir : string) (weights : StateDict) (cfg : LoraConfig).

(** What the libraries and the process environment hand to the script. *)
Record World : Type := {
  import_structure : gmap string (list string);
  environ : gmap string string;
  read_int : string -> option Z;      (* what [int] reads from a string *)
  torch_version_ge : string -> bool;  (* [torch.__version__ >= v] *)
  platform : string;                  (* [sys.platform] *)
  pretrained_tokenizer : Tokenizer;
  rng : Rng;
  fresh_seeds : Z * Z;
  dataset_train : list DataPoint;
  adapted_parameters : StateDict;  (* of the model [get_peft_model] returns *)
  trained_parameters : StateDict;  (* of the same model when [train] returns *)
}.

(** A script run: the library calls made so far, and a value or the
    exception that ended the run. *)
Definition script (A : Type) : Type := list event * result A.

Global Instance script_ret : MRet script := fun A a => ([], Ok a).
Global Instance script_bind : MBind script := fun A B k m =>
  match m with
  | (t, Ok a) => let '(t', r) := k a in (t ++ t', r)
  | (t, Raise e) => (t, Raise e)
  end.

Definition emit (ev : event) : script unit := ([ev], Ok tt).
Definition lift {A} (r : result A) : script A := ([], r).

Definition trace {A} (m : script A) : list event := m.1.
Definition outcome {A} (m : script A) : result A := m.2.

(** [torch.__version__ >= "2" and sys.platform != "win32"] *)
Definition compiles (w : World) : bool :=
  torch_version_ge w "2" && negb (String.eqb (platform w) "win32").

(** The tokenizer as the dataset code sees it (source line 98). *)
Definition script_tokenizer (w : World) : Tokenizer :=
  set_pad_token_id (pretrained_tokenizer w) 0.

(** Source lines 59-211, everything after the assertion. *)
Definition run_with (val_set_size : Z) (w : World) : script unit :=
  cfg ← lift (configure (read_int w) (environ w));
  emit (FromPretrainedModel "EleutherAI/gpt-neox-20b" true (device_map cfg));;
  emit (FromPretrainedTokenizer "EleutherAI/gpt-neox-20b");;
  let model := {| parameters := adapted_parameters w;
                  state_dict := fun ps => ps |} in
  let tokenizer := script_tokenizer w in
  emit (LoadDataset DATA_PATH);;
  data ← lift (build_datasets (rng w) (fresh_seeds w) tokenizer
                 val_set_size (dataset_train w));
  let args := training_arguments val_set_size cfg in
  let model := replace_state_dict model in
  (if compiles w then emit TorchCompile else mret tt);;
  emit (Train args (train_data data) (val_data data));;
  let model := {| parameters := trained_parameters w;
                  state_dict := state_dict model |} in
  emit (SavePretrained OUTPUT_DIR (saved_weights model) config).

Definition main_with (val_set_size : Z) (w : World) : script unit :=
  lift (startup_assert (import_structure w));;
  run_with val_set_size w.

Definition run : World -> script unit := run_with VAL_SET_SIZE.
Definition main : World -> script unit := main_with VAL_SET_SIZE.

End Script.

Arguments import_structure {Tensor} _.
Arguments environ {Tensor} _.
Arguments read_int {Tensor} _.
Arguments torch_version_ge {Tensor} _.
Arguments platform {Tensor} _.
Arguments pretrained_tokenizer {Tensor} _.
Arguments rng {Tensor} _.
Arguments fresh_seeds {Tensor} _.
Arguments dataset_train {Tensor} _.
Arguments adapted_parameters {Tensor} _.
Arguments trained_parameters {Tensor} _.
Arguments compiles {Tensor} _.
Arguments parameters {Tensor} _.
Arguments state_dict {Tensor} _.
Arguments FromPretrainedModel {Tensor}.
Arguments FromPretrainedTokenizer {Tensor}.
Arguments LoadDataset {Tensor}.
Arguments TorchCompile {Tensor}.
Arguments Train {Tensor}.
Arguments SavePretrained {Tensor}.
Arguments get_peft_model_state_dict {Tensor}.
Arguments replace_state_dict {Tensor}.
Arguments call_state_dict {Tensor}.
Arguments saved_weights {Tensor}.
Arguments script_tokenizer {Tensor}.
Arguments run_with {Tensor}.
Arguments run {Tensor}.
Arguments main_with {Tensor}.
Arguments main {Tensor}.
Arguments trace {Tensor A}.
Arguments outcome {Tensor A}.

(** ** Vocabulary of the statements *)

(** The [max_length] of every tokenizer call of the script. *)
Definition max_length : nat := Z.to_nat (CUTOFF_LEN + 1).

(** The ids of a text, padded on the right up to [max_length]. *)
Definition padded_ids (tk : Tokenizer) (p : Z) (text : string) : list Z :=
  encode tk text max_length
  ++ replicate (max_length - length (encode tk text max_length)) p.

(** The number of label positions [generate_and_tokenize_prompt] masks. *)
Definition len_user_prompt_tokens (tk : Tokenizer) (input : string) : Z :=
  len (encode tk (user_prompt_of input) max_length) - 1.

(** The rows a successful [dataset_map] returns, row by row. *)
Definition mapped_row {A B} (f : A -> result B) (row : A) : option (A * B) :=
  match f row with
  | Ok cols => Some (row, cols)
  | Raise _ => None
  end.

(** The library calls that precede the dataset code. *)
Definition loading_events {Tensor} (cfg : Config) : list (event Tensor) :=
  [FromPretrainedModel "EleutherAI/gpt-neox-20b" true (device_map cfg);
   FromPretrainedTokenizer "EleutherAI/gpt-neox-20b";
   LoadDataset DATA_PATH].

(** A row the dataset code can process: it has an [input] cell, and its
    [target] cell is a string. *)
Definition well_formed (data_point : DataPoint) : Prop :=
  is_Some (data_point !! "input")
  /\ exists target, data_point !! "target" = Some (Str target).

(** A row with both columns, whatever their cells hold. *)
Definition has_columns (data_point : DataPoint) : Prop :=
  is_Some (data_point !! "input") /\ is_Some (data_point !! "target").

(** All the tokenized rows handed to the trainer. *)
Definition rows_of (data : Datasets) : list Row :=
  train_data data ++ default [] (val_data data).

(** The library calls of a run that reached the trainer, from there on. *)
Definition training_events {Tensor} (w : World Tensor) (val_set_size : Z)
    (cfg : Config) (data : Datasets) : list (event Tensor) :=
  (if compiles w then [TorchCompile] else [])
  ++ [Train (training_arguments val_set_size cfg) (train_data data) (val_data data);
      SavePretrained OUTPUT_DIR
        (get_peft_model_state_dict
           (get_peft_model_state_dict (trained_parameters w)))
        config].

(** ** Concrete inputs *)

(** The character tokenizer after the script has set its pad token. *)
Definition tk0 : Tokenizer := set_pad_token_id (char_tokenizer None) 0.

Definition dp0 : DataPoint := {[ "input" := Str "hi"; "target" := Str "ok" ]}.

(** The same row with one more column. *)
Definition dp0_extra : DataPoint := <[ "id" := Str "17" ]> dp0.

(** A degenerate tokenizer that gives no id to any text. *)
Definition silent_tokenizer : Tokenizer :=
  {| encode := fun _ _ => [];
     encode_truncated := fun _ m => Nat.le_0_l m;
     pad_token_id := None;
     eos_token_id := None |}.


Definition dp1 : DataPoint := {[ "input" := Str "1+1"; "target" := Str "2" ]}.
Definition dp2 : DataPoint := {[ "input" := Str "2+2"; "target" := Str "4" ]}.

(** A generator with two draws: the identity for an even seed, the
    reversal for an odd one. *)
Definition flip_permutation (seed : Z) (n : nat) : list nat :=
  if Z.even seed then seq 0 n else reverse (seq 0 n).

Definition flip_permutation_perm (seed : Z) (n : nat) :
  flip_permutation seed n ≡ₚ seq 0 n.
Proof.
  unfold flip_permutation. destruct (Z.even seed); [done |].
  apply reverse_Permutation.
Qed.

Definition flip_rng : Rng :=
  {| permutation := flip_permutation; permutation_perm := flip_permutation_perm |}.

(** The import structure of a transformers release with LLaMA, and that of
    the earlier fork, where the classes had other names. *)
Definition llama_released : gmap string (list string) :=
  {[ "models.llama" := ["LLAMA_PRETRAINED_CONFIG_ARCHIVE_MAP"; "LlamaConfig";
                        "LlamaTokenizer"] ]}.
Definition llama_fork : gmap string (list string) :=
  {[ "models.llama" := ["LLaMAConfig"; "LLaMATokenizer"] ]}.

(** One base weight and the two adapter matrices of its layer. *)
Definition weights0 (scale : Z) : gmap string Z :=
  {[ "gpt_neox.layers.0.attention.query_key_value.weight" := 5;
     "gpt_neox.layers.0.attention.query_key_value.lora_A.weight" := 2 * scale;
     "gpt_neox.layers.0.attention.query_key_value.lora_B.weight" := 3 * scale ]}.

(** A world around the character tokenizer; as in the vocabulary of
    GPT-NeoX, id 0 is the end-of-sequence token. *)
Definition world0 (imp : gmap string (list string)) (env : gmap string string)
    (seeds : Z * Z) (rows : list DataPoint) : World Z :=
  {| import_structure := imp;
     environ := env;
     read_int := ascii_decimal;
     torch_version_ge := fun v => String.leb v "2.0.1";
     platform := "linux";
     pretrained_tokenizer := char_tokenizer (Some 0);
     rng := flip_rng;
     fresh_seeds := seeds;
     dataset_train := rows;
     adapted_parameters := weights0 0;
     trained_parameters := weights0 1 |}.

(** A distributed launch on two processes over 2001 rows. *)
Definition w_ddp : World Z :=
  world0 llama_released {[ "WORLD_SIZE" := "2"; "LOCAL_RANK" := "1" ]} (7, 12)
    (replicate 2001 dp0).

(** A launch against the fork. *)
Definition w_fork : World Z := world0 llama_fork ∅ (7, 12) (replicate 2001 dp0).

(** Two launches over the same three rows that draw different seeds. *)
Definition w_small : World Z := world0 llama_released ∅ (7, 12) [dp0; dp1; dp2].
Definition w_small' : World Z := world0 llama_released ∅ (8, 11) [dp0; dp1; dp2].

(** Three parameters of a loaded model: a quantized weight, a layer norm
    and an empty buffer. *)
Definition params0 : NamedParameters :=
  [("gpt_neox.layers.0.attention.query_key_value.weight",
    {| numel := 12; requires_grad := false; ndim := 2; dtype := "torch.int8" |});
   ("gpt_neox.layers.0.input_layernorm.weight",
    {| numel := 4; requires_grad := true; ndim := 1; dtype := "torch.float32" |});
   ("gpt_neox.final_layer_norm.weight",
    {| numel := 4; requires_grad := true; ndim := 1; dtype := "torch.float32" |})].

(** A row whose instruction alone fills the window of the character
    tokenizer. *)
Definition dp_long : DataPoint :=
  {[ "input" := Str "Translate the following sentence into French, German and Spanish.";
     "target" := Str "ok" ]}.

(** A row of a line of the file without a response, and one of a line
    without an instruction. *)
Definition dp_null_target : DataPoint := {[ "input" := Str "hi"; "target" := PyNone ]}.
Definition dp_null_input : DataPoint := {[ "input" := PyNone; "target" := Str "ok" ]}.

(** A launch against a transformers release that predates LLaMA. *)
Definition w_old : World Z := world0 ∅ ∅ (7, 12) (replicate 2001 dp0).

(** * Properties *)

(** ** The Python operations at work *)

Example ascii_decimal_signed : ascii_decimal " -1_0 " = Some (-10).
Proof. reflexivity. Qed.

Example ascii_decimal_double_underscore : ascii_decimal "1__0" = None.
Proof. reflexivity. Qed.

Example ascii_decimal_word : int ascii_decimal "two" = Raise ValueError.
Proof. reflexivity. Qed.

Example floordiv_rounds_down : floordiv 2 (-3) = Ok (-1).
Proof. reflexivity. Qed.

Example slice_from_negative : slice_from [1; 2; 3] (-1) = [3].
Proof. reflexivity. Qed.

Example slice_to_negative : slice_to [1; 2; 3] (-1) = [1; 2].
Proof. reflexivity. Qed.

Example list_mul_negative : list_mul 7 (-1) = [].
Proof. reflexivity. Qed.

Example configure_single_process :
  configure ascii_decimal ∅
  = Ok {| device_map := Auto; world_size := 1; ddp := false;
          GRADIENT_ACCUMULATION_STEPS := 2 |}.
Proof. vm_compute. reflexivity. Qed.

Example configure_four_processes :
  configure ascii_decimal {[ "WORLD_SIZE" := "4" ]}
  = Ok {| device_map := OnDevice 0; world_size := 4; ddp := true;
          GRADIENT_ACCUMULATION_STEPS := 0 |}.
Proof. vm_compute. reflexivity. Qed.

Example configure_no_process :
  configure ascii_decimal {[ "WORLD_SIZE" := "0" ]} = Raise ZeroDivisionError.
Proof. vm_compute. reflexivity. Qed.

Example startup_assert_without_llama :
  startup_assert ∅ = Raise (KeyError "models.llama").
Proof. vm_compute. reflexivity. Qed.

(** With a user prompt of no id at all the computed length is -1: nothing
    is masked and the slice keeps the last input id only. *)
Example labels_of_silent_tokenizer :
  generate_and_tokenize_prompt (set_pad_token_id silent_tokenizer 0) dp0
  = Ok {| input_ids := replicate 256 0; labels := [0];
          attention_mask := replicate 256 1 |}.
Proof. vm_compute. reflexivity. Qed.

(** ** Python lists *)

Lemma slice_to_minus_one {A} (l : list A) :
  slice_to l (-1) = take (length l - 1) l.
Proof.
  unfold slice_to, slice_index, len. simpl. f_equal. lia.
Qed.

Lemma slice_from_nonneg {A} (l : list A) (k : Z) :
  0 <= k -> slice_from l k = drop (Z.to_nat k) l.
Proof.
  intros Hk. unfold slice_from, slice_index.
  destruct (Z.ltb_spec k 0); [lia | done].
Qed.

Lemma masked_labels_length (full_tokens : list Z) (n : Z) :
  0 <= n <= len full_tokens ->
  length (list_mul (-100) n ++ slice_from full_tokens n) = length full_tokens.
Proof.
  intros [Hn Hle]. unfold len in Hle.
  rewrite slice_from_nonneg by done.
  unfold list_mul. rewrite length_app, length_replicate, length_drop. lia.
Qed.

Lemma masked_labels_below (full_tokens : list Z) (n : Z) (i : nat) :
  Z.of_nat i < n ->
  (list_mul (-100) n ++ slice_from full_tokens n) !! i = Some (-100).
Proof.
  intros Hi. unfold list_mul.
  rewrite lookup_app_l by (rewrite length_replicate; lia).
  apply lookup_replicate_2. lia.
Qed.

Lemma masked_labels_above (full_tokens : list Z) (n : Z) (i : nat) :
  0 <= n <= Z.of_nat i ->
  (list_mul (-100) n ++ slice_from full_tokens n) !! i = full_tokens !! i.
Proof.
  intros [Hn Hi]. unfold list_mul.
  rewrite slice_from_nonneg by done.
  rewrite lookup_app_r by (rewrite length_replicate; lia).
  rewrite length_replicate, lookup_drop. f_equal. lia.
Qed.

(** ** Tokenizer calls *)

Lemma max_length_eq : max_length = 257%nat.
Proof. reflexivity. Qed.

Lemma cutoff_len_eq : Z.to_nat CUTOFF_LEN = 256%nat.
Proof. reflexivity. Qed.

Lemma padded_ids_length tk p text : length (padded_ids tk p text) = max_length.
Proof.
  unfold padded_ids. rewrite length_app, length_replicate.
  pose proof (encode_truncated tk text max_length). lia.
Qed.

Lemma tokenizer_call_padding tk p text :
  pad_token_id tk = Some p ->
  exists mask,
    tokenizer_call tk text (CUTOFF_LEN + 1) true
    = Ok {| be_input_ids := padded_ids tk p text; be_attention_mask := mask |}
    /\ length mask = max_length.
Proof.
  intros Hp. unfold tokenizer_call. rewrite Hp. eexists. split; [reflexivity |].
  rewrite length_app, !length_replicate.
  pose proof (encode_truncated tk text (Z.to_nat (CUTOFF_LEN + 1))).
  unfold max_length. lia.
Qed.

Lemma tokenizer_call_no_padding tk text m :
  tokenizer_call tk text m false
  = Ok {| be_input_ids := encode tk text (Z.to_nat m);
          be_attention_mask := replicate (length (encode tk text (Z.to_nat m))) 1 |}.
Proof. reflexivity. Qed.

Lemma cutoff_take (l : list Z) :
  length l = max_length -> slice_to l (-1) = take (Z.to_nat CUTOFF_LEN) l.
Proof.
  intros Hl. rewrite slice_to_minus_one, Hl. reflexivity.
Qed.

Lemma len_user_prompt_tokens_le tk input :
  len_user_prompt_tokens tk (render input) <= CUTOFF_LEN.
Proof.
  unfold len_user_prompt_tokens, len.
  pose proof (encode_truncated tk (user_prompt_of (render input)) max_length) as H.
  pose proof max_length_eq. unfold CUTOFF_LEN. lia.
Qed.

(** The record the function returns whenever the row has an [input] cell
    and a string for [target], and the tokenizer can pad. *)
Lemma generate_and_tokenize_prompt_ok tk p (data_point : DataPoint) input target :
  pad_token_id tk = Some p ->
  data_point !! "input" = Some input ->
  data_point !! "target" = Some (Str target) ->
  let full_tokens :=
    take (Z.to_nat CUTOFF_LEN) (padded_ids tk p (user_prompt_of (render input) +:+ target)) in
  let n := len_user_prompt_tokens tk (render input) in
  generate_and_tokenize_prompt tk data_point
  = Ok {| input_ids := full_tokens;
          labels := list_mul (-100) n ++ slice_from full_tokens n;
          attention_mask := list_mul 1 (len full_tokens) |}.
Proof.
  intros Hp Hin Htg. unfold generate_and_tokenize_prompt, getitem.
  rewrite Hin. cbn [mbind result_bind].
  rewrite tokenizer_call_no_padding. cbn [mbind result_bind be_input_ids].
  rewrite Htg. cbn [mbind result_bind add_str].
  destruct (tokenizer_call_padding tk p (user_prompt_of (render input) +:+ target) Hp)
    as (mask & -> & _).
  cbn [mbind result_bind be_input_ids].
  rewrite cutoff_take by apply padded_ids_length.
  reflexivity.
Qed.

Lemma full_tokens_length tk p text :
  length (take (Z.to_nat CUTOFF_LEN) (padded_ids tk p text)) = Z.to_nat CUTOFF_LEN.
Proof.
  rewrite length_take, padded_ids_length, max_length_eq, cutoff_len_eq. lia.
Qed.

(** ** Label masking and fixed length *)



(** C2: [tokenize] and [generate_and_tokenize_prompt] return exactly
    [CUTOFF_LEN] = 256 input ids: the ids of the text truncated and padded
    to [CUTOFF_LEN + 1], without the final one. *)
Theorem input_ids_have_cutoff_length tk p :
  pad_token_id tk = Some p ->
  (forall prompt, exists t final,
      tokenize tk prompt = Ok t
      /\ length (padded_ids tk p prompt) = Z.to_nat (CUTOFF_LEN + 1)
      /\ padded_ids tk p prompt = t_input_ids t ++ [final]
      /\ len (t_input_ids t) = CUTOFF_LEN)
  /\ (forall (data_point : DataPoint) input target,
      data_point !! "input" = Some input ->
      data_point !! "target" = Some (Str target) ->
      exists rec final,
        generate_and_tokenize_prompt tk data_point = Ok rec
        /\ length (padded_ids tk p (user_prompt_of (render input) +:+ target))
           = Z.to_nat (CUTOFF_LEN + 1)
        /\ padded_ids tk p (user_prompt_of (render input) +:+ target)
           = input_ids rec ++ [final]
        /\ len (input_ids rec) = CUTOFF_LEN)
  /\ CUTOFF_LEN = 256.
Proof.
  intros Hp.
  assert (forall text, exists final,
             padded_ids tk p text
             = take (Z.to_nat CUTOFF_LEN) (padded_ids tk p text) ++ [final])
    as Hlast.
  { intros text. pose proof (padded_ids_length tk p text) as Hlen.
    destruct (padded_ids tk p text) as [|x l] using rev_ind; [done |].
    exists x. rewrite length_app, max_length_eq in Hlen. cbn in Hlen.
    rewrite take_app_length'; [done |]. rewrite cutoff_len_eq. lia. }
  split; [| split; [| reflexivity]].
  - intros prompt. destruct (Hlast prompt) as [final Hfinal].
    destruct (tokenizer_call_padding tk p prompt Hp) as (mask & Hcall & _).
    unfold tokenize. rewrite Hcall. cbn [mbind result_bind be_input_ids].
    rewrite cutoff_take by apply padded_ids_length.
    eexists _, final. split; [reflexivity |]. cbn [t_input_ids].
    split; [apply padded_ids_length |]. split; [exact Hfinal |].
    unfold len. rewrite full_tokens_length. apply Z2Nat.id. done.
  - intros data_point input target Hin Htg.
    destruct (Hlast (user_prompt_of (render input) +:+ target)) as [final Hfinal].
    eexists _, final.
    split; [by apply (generate_and_tokenize_prompt_ok tk p) |].
    cbn [input_ids]. split; [apply padded_ids_length |].
    split; [exact Hfinal |].
    unfold len. rewrite full_tokens_length. apply Z2Nat.id. done.
Qed.

Lemma input_ids_have_cutoff_length_witness :
  (exists t, tokenize tk0 "hi" = Ok t /\ len (t_input_ids t) = 256)
  /\ (exists rec, generate_and_tokenize_prompt tk0 dp0 = Ok rec
                  /\ len (input_ids rec) = 256).
Proof.
  destruct (input_ids_have_cutoff_length tk0 0) as (Htok & Hgen & _).
  - reflexivity.
  - split.
    + destruct (Htok "hi") as (t & _ & Ht & _ & _ & Hlen). by exists t.
    + destruct (Hgen dp0 (Str "hi") "ok") as (rec & _ & Hrec & _ & _ & Hlen).
      * vm_compute. reflexivity.
      * vm_compute. reflexivity.
      * by exists rec.
Defined.

(** C8: the three fields of a record have the same length, and the
    attention mask is 1 at every position, the padded ones included. *)
Theorem record_fields_same_length_mask_all_ones tk p (data_point : DataPoint)
    input target :
  pad_token_id tk = Some p ->
  data_point !! "input" = Some input ->
  data_point !! "target" = Some (Str target) ->
  encode tk (user_prompt_of (render input)) max_length <> [] ->
  exists rec,
    generate_and_tokenize_prompt tk data_point = Ok rec
    /\ length (labels rec) = length (input_ids rec)
    /\ length (attention_mask rec) = length (input_ids rec)
    /\ (forall i : nat, (i < length (input_ids rec))%nat ->
          attention_mask rec !! i = Some 1)
    /\ (forall i : nat,
          (length (encode tk (user_prompt_of (render input) +:+ target) max_length) <= i
           < length (input_ids rec))%nat ->
          input_ids rec !! i = Some p /\ attention_mask rec !! i = Some 1).
Proof.
  intros Hp Hin Htg Hne.
  eexists. split; [by apply (generate_and_tokenize_prompt_ok tk p) |].
  cbn [labels input_ids attention_mask].
  set (full_tokens := take _ (padded_ids tk p _)).
  assert (length full_tokens = Z.to_nat CUTOFF_LEN) as Hlen
    by apply full_tokens_length.
  assert (forall i : nat, (i < length full_tokens)%nat ->
            list_mul 1 (len full_tokens) !! i = Some 1) as Hones.
  { intros i Hi. apply lookup_replicate_2. unfold len. lia. }
  split; [| split; [| split; [exact Hones |]]].
  - apply masked_labels_length. split.
    + unfold len_user_prompt_tokens, len.
      destruct (encode tk (user_prompt_of (render input)) max_length); [done | cbn; lia].
    + pose proof (len_user_prompt_tokens_le tk input).
      unfold len. rewrite Hlen. rewrite Z2Nat.id; done.
  - unfold list_mul, len. rewrite length_replicate. lia.
  - intros i [Hlo Hhi]. split; [| by apply Hones].
    unfold full_tokens. rewrite lookup_take_lt by lia.
    unfold padded_ids. rewrite lookup_app_r by done.
    apply lookup_replicate_2.
    rewrite Hlen, cutoff_len_eq in Hhi. pose proof max_length_eq. lia.
Qed.

Lemma record_fields_same_length_mask_all_ones_witness :
  exists rec,
    generate_and_tokenize_prompt tk0 dp0 = Ok rec
    /\ length (labels rec) = length (input_ids rec)
    /\ length (attention_mask rec) = length (input_ids rec)
    /\ input_ids rec !! 255%nat = Some 0
    /\ attention_mask rec !! 255%nat = Some 1.
Proof.
  destruct (record_fields_same_length_mask_all_ones tk0 0 dp0 (Str "hi") "ok")
    as (rec & Hrec & Hl & Ha & _ & Hpad).
  - reflexivity.
  - vm_compute. reflexivity.
  - vm_compute. reflexivity.
  - vm_compute. discriminate.
  - exists rec. split; [exact Hrec |]. split; [exact Hl |]. split; [exact Ha |].
    apply Hpad.
    assert (length (input_ids rec) = 256%nat) as ->.
    { revert Hrec. vm_compute. intros [= <-]. reflexivity. }
    vm_compute. split; apply Nat.leb_le; reflexivity.
Defined.

(** ** What the tokenized record depends on *)

(** C5: the record is built from the [input] and [target] fields alone.
    Two rows that agree on both give the same result (record or
    exception), whatever other columns they carry.  The text tokenized is
    the template of the function around the [input] cell, as an f-string
    shows it, followed by [target]; the masked span is counted on the
    template around [input] alone; and [generate_prompt] places the same
    two fields in its own template. *)
Theorem prompt_built_from_input_and_target tk (dp1 dp2 : DataPoint) :
  dp1 !! "input" = dp2 !! "input" ->
  dp1 !! "target" = dp2 !! "target" ->
  generate_and_tokenize_prompt tk dp1 = generate_and_tokenize_prompt tk dp2
  /\ generate_prompt dp1 = generate_prompt dp2
  /\ (forall p input target,
        pad_token_id tk = Some p ->
        dp1 !! "input" = Some input ->
        dp1 !! "target" = Some (Str target) ->
        let shown := match input with Str s => s | NotStr shown => shown end in
        let user_prompt :=
          "Below is an instruction that describes a task. Write a response that appropriately completes the request.

                ### Instruction:
                " +:+ shown +:+ "

                ### Response:
                " in
        let n := len (encode tk user_prompt max_length) - 1 in
        exists rec,
          generate_and_tokenize_prompt tk dp1 = Ok rec
          /\ input_ids rec
             = take (Z.to_nat CUTOFF_LEN) (padded_ids tk p (user_prompt +:+ target))
          /\ labels rec = list_mul (-100) n ++ slice_from (input_ids rec) n
          /\ generate_prompt dp1
             = Ok ("Below is an instruction that describes a task. Write a response that appropriately completes the request.

### Instruction:
" +:+ shown +:+ "

### Response:
" +:+ target)).
Proof.
  intros Hin Htg. split; [| split].
  - unfold generate_and_tokenize_prompt, getitem. rewrite Hin, Htg. reflexivity.
  - unfold generate_prompt, getitem. rewrite Hin, Htg. reflexivity.
  - intros p input target Hp Hi Ht shown user_prompt n.
    rewrite (generate_and_tokenize_prompt_ok tk p dp1 input target Hp Hi Ht).
    eexists. split; [reflexivity |]. cbn [input_ids labels].
    split; [reflexivity |]. split; [reflexivity |].
    unfold generate_prompt, getitem. rewrite Hi, Ht. reflexivity.
Qed.

Lemma prompt_built_from_input_and_target_witness :
  dp0 <> dp0_extra
  /\ generate_and_tokenize_prompt tk0 dp0
     = generate_and_tokenize_prompt tk0 dp0_extra
  /\ generate_and_tokenize_prompt tk0 dp0 <> generate_and_tokenize_prompt tk0 dp1.
Proof.
  split; [| split].
  - intros Heq. assert (dp0 !! "id" = dp0_extra !! "id") as Hid by (by rewrite Heq).
    vm_compute in Hid. discriminate.
  - apply (prompt_built_from_input_and_target tk0 dp0 dp0_extra).
    + vm_compute. reflexivity.
    + vm_compute. reflexivity.
  - intros Heq. vm_compute in Heq. discriminate Heq.
Defined.

Lemma generate_and_tokenize_prompt_inv tk (data_point : DataPoint) rec :
  generate_and_tokenize_prompt tk data_point = Ok rec ->
  exists input target,
    data_point !! "input" = Some input /\ data_point !! "target" = Some (Str target).
Proof.
  unfold generate_and_tokenize_prompt, getitem.
  destruct (data_point !! "input") as [input|]; [| discriminate].
  cbn [mbind result_bind]. rewrite tokenizer_call_no_padding.
  cbn [mbind result_bind].
  destruct (data_point !! "target") as [[target|]|]; [| discriminate..].
  intros _. by exists input, target.
Qed.

(** Past the ids of the text, the input ids are the pad token. *)
Lemma padding_holds_pad_token tk p (data_point : DataPoint) input target rec :
  pad_token_id tk = Some p ->
  data_point !! "input" = Some input ->
  data_point !! "target" = Some (Str target) ->
  generate_and_tokenize_prompt tk data_point = Ok rec ->
  forall i : nat,
    (length (encode tk (user_prompt_of (render input) +:+ target) max_length) <= i
     < Z.to_nat CUTOFF_LEN)%nat ->
    input_ids rec !! i = Some p.
Proof.
  intros Hp Hin Htg Hrec i [Hlo Hhi].
  rewrite (generate_and_tokenize_prompt_ok tk p data_point input target) in Hrec
    by done.
  injection Hrec as <-. cbn [input_ids].
  rewrite lookup_take_lt by done.
  unfold padded_ids. rewrite lookup_app_r by done.
  apply lookup_replicate_2.
  rewrite cutoff_len_eq in Hhi. pose proof max_length_eq. lia.
Qed.

(** ** The start-up assertion *)

Lemma startup_assert_listed (imp : gmap string (list string)) names :
  imp !! "models.llama" = Some names ->
  "LlamaTokenizer" ∈ names ->
  startup_assert imp = Ok tt.
Proof.
  intros Hnames Hin. unfold startup_assert, getitem. rewrite Hnames.
  cbn [mbind result_bind]. by rewrite bool_decide_eq_true_2.
Qed.

Lemma startup_assert_not_listed (imp : gmap string (list string)) names :
  imp !! "models.llama" = Some names ->
  "LlamaTokenizer" ∉ names ->
  startup_assert imp = Raise (AssertionError reinstall_guidance).
Proof.
  intros Hnames Hin. unfold startup_assert, getitem. rewrite Hnames.
  cbn [mbind result_bind]. by rewrite bool_decide_eq_false_2.
Qed.

(** Without any entry for the llama models the subscript fails first. *)
Lemma startup_assert_no_entry (imp : gmap string (list string)) :
  imp !! "models.llama" = None ->
  startup_assert imp = Raise (KeyError "models.llama").
Proof.
  intros Hnames. unfold startup_assert, getitem. by rewrite Hnames.
Qed.

(** ** Batch sizing *)

(** Case analysis on the first computation of a sequence that succeeded. *)
Ltac bind_ok :=
  match goal with
  | |- mbind _ ?r = Ok _ -> _ =>
      let H := fresh "Hok" in
      destruct r eqn:H; cbn [mbind result_bind]; [| discriminate]
  end.

Lemma steps_per_batch : BATCH_SIZE `div` MICRO_BATCH_SIZE = 2.
Proof. reflexivity. Qed.

Lemma floordiv_batch :
  floordiv BATCH_SIZE MICRO_BATCH_SIZE = Ok (BATCH_SIZE `div` MICRO_BATCH_SIZE).
Proof. reflexivity. Qed.

Lemma configure_world_size (read : string -> option Z)
    (environ : gmap string string) cfg :
  configure read environ = Ok cfg ->
  match environ !! "WORLD_SIZE" with
  | None => world_size cfg = 1
  | Some s => int read s = Ok (world_size cfg)
  end.
Proof.
  unfold configure, get. rewrite floordiv_batch. cbn [mbind result_bind].
  destruct (environ !! "WORLD_SIZE") as [s|].
  - bind_ok. destruct (negb _).
    + do 2 bind_ok. by intros [= <-].
    + by intros [= <-].
  - cbn [mbind result_bind]. by intros [= <-].
Qed.

Lemma configure_steps (read : string -> option Z)
    (environ : gmap string string) cfg :
  configure read environ = Ok cfg ->
  (world_size cfg = 1 ->
     GRADIENT_ACCUMULATION_STEPS cfg = BATCH_SIZE `div` MICRO_BATCH_SIZE)
  /\ (world_size cfg <> 1 ->
        world_size cfg <> 0
        /\ GRADIENT_ACCUMULATION_STEPS cfg
           = (BATCH_SIZE `div` MICRO_BATCH_SIZE) `div` world_size cfg).
Proof.
  unfold configure. rewrite floordiv_batch. cbn [mbind result_bind].
  bind_ok. rename a into ws.
  destruct (Z.eqb_spec ws 1) as [-> | Hne]; cbn [negb].
  - intros [= <-]. cbn. split; [done | lia].
  - bind_ok. unfold floordiv.
    destruct (Z.eqb_spec ws 0) as [-> | Hne0]; [discriminate |].
    cbn [mbind result_bind]. intros [= <-]. cbn. split; [done |]. done.
Qed.

(** A world size of 0 stops the script at the division (or earlier, at a
    malformed local rank). *)
Lemma configure_world_size_zero (read : string -> option Z)
    (environ : gmap string string) s :
  environ !! "WORLD_SIZE" = Some s ->
  int read s = Ok 0 ->
  is_ok (configure read environ) = false.
Proof.
  intros Hs Hint. unfold configure, get. rewrite Hs, Hint, floordiv_batch.
  cbn [mbind result_bind negb Z.eqb].
  by destruct (match environ !! "LOCAL_RANK" with Some _ => _ | None => _ end).
Qed.

(** ** Datasets *)

Section Select.
Context {A : Type}.
Implicit Types (rows : list A) (indices : list nat).

Lemma select_elem_of rows indices x : x ∈ select rows indices -> x ∈ rows.
Proof.
  unfold select. rewrite list_elem_of_omap. intros (i & _ & Hi).
  by eapply list_elem_of_lookup_2.
Qed.

Lemma select_length rows indices :
  Forall (fun i => (i < length rows)%nat) indices ->
  length (select rows indices) = length indices.
Proof.
  unfold select. induction 1 as [| i indices Hi _ IH]; [done |].
  cbn. destruct (lookup_lt_is_Some_2 rows i Hi) as [x ->]. cbn. by rewrite IH.
Qed.

Lemma select_seq_from (done_ rows : list A) :
  select (done_ ++ rows) (seq (length done_) (length rows)) = rows.
Proof.
  revert done_. induction rows as [| x rows IH]; intros done_; [done |].
  cbn [length seq]. unfold select. cbn.
  rewrite list_lookup_middle by done. cbn. f_equal.
  specialize (IH (done_ ++ [x])).
  rewrite length_app, <- app_assoc in IH. cbn in IH.
  by rewrite Nat.add_1_r in IH.
Qed.

Lemma select_seq rows : select rows (seq 0 (length rows)) = rows.
Proof. apply (select_seq_from [] rows). Qed.

Lemma select_permutation rows indices :
  indices ≡ₚ seq 0 (length rows) -> select rows indices ≡ₚ rows.
Proof.
  intros Hperm. unfold select. rewrite Hperm. fold (select rows (seq 0 (length rows))).
  by rewrite select_seq.
Qed.

Lemma permutation_in_range (rng : Rng) seed n :
  Forall (fun i => (i < n)%nat) (permutation rng seed n).
Proof.
  rewrite (permutation_perm rng seed n). apply Forall_seq. lia.
Qed.

Lemma shuffle_permutation (rng : Rng) seed rows : shuffle rng seed rows ≡ₚ rows.
Proof. apply select_permutation, permutation_perm. Qed.

Lemma shuffle_length (rng : Rng) seed rows :
  length (shuffle rng seed rows) = length rows.
Proof. by rewrite shuffle_permutation. Qed.

(** The split: sizes, and nothing lost or duplicated. *)
Lemma train_test_split_ok (rng : Rng) rows test_size seed sp :
  train_test_split rng rows test_size seed = Ok sp ->
  0 < test_size < len rows
  /\ len (split_test sp) = test_size
  /\ len (split_train sp) = len rows - test_size
  /\ split_test sp ++ split_train sp ≡ₚ rows.
Proof.
  unfold train_test_split.
  destruct (Z.ltb_spec 0 test_size) as [Hpos |]; [| discriminate].
  destruct (Z.ltb_spec test_size (len rows)) as [Hlt |]; [| discriminate].
  cbn [andb]. intros [= <-]. cbn [split_test split_train].
  pose proof (permutation_in_range rng seed (length rows)) as Hrange.
  pose proof (permutation_perm rng seed (length rows)) as Hperm.
  apply Permutation_length in Hperm. rewrite length_seq in Hperm.
  unfold len in *. split; [done |].
  rewrite !select_length, length_take, length_drop
    by (by apply Forall_take || by apply Forall_drop).
  repeat split; [lia | lia |].
  unfold select. rewrite <- omap_app, take_drop.
  apply select_permutation, permutation_perm.
Qed.

Lemma train_test_split_total (rng : Rng) rows test_size seed :
  0 < test_size < len rows ->
  exists sp, train_test_split rng rows test_size seed = Ok sp.
Proof.
  intros [Hpos Hlt]. unfold train_test_split.
  destruct (Z.ltb_spec 0 test_size); [| lia].
  destruct (Z.ltb_spec test_size (len rows)); [| lia].
  by eexists.
Qed.

End Select.

Section DatasetMap.
Context {A B : Type} (f : A -> result B).

Lemma dataset_map_ok rows out :
  dataset_map f rows = Ok out -> out = omap (mapped_row f) rows.
Proof.
  revert out. induction rows as [| row rows IH]; intros out; cbn.
  - by intros [= <-].
  - unfold mapped_row at 1. destruct (f row) as [cols|]; [| discriminate].
    cbn [mbind result_bind].
    destruct (dataset_map f rows) as [rest|]; [| discriminate].
    cbn [mbind result_bind]. intros [= <-]. by rewrite (IH rest).
Qed.

Lemma dataset_map_rows rows out :
  dataset_map f rows = Ok out -> out.*1 = rows.
Proof.
  revert out. induction rows as [| row rows IH]; intros out; cbn.
  - by intros [= <-].
  - destruct (f row) as [cols|]; [| discriminate]. cbn [mbind result_bind].
    destruct (dataset_map f rows) as [rest|]; [| discriminate].
    cbn [mbind result_bind]. intros [= <-]. cbn. by rewrite (IH rest).
Qed.

Lemma dataset_map_length rows out :
  dataset_map f rows = Ok out -> length out = length rows.
Proof.
  intros Hmap. by rewrite <- (dataset_map_rows rows out Hmap), length_fmap.
Qed.

Lemma dataset_map_elem_of rows out row cols :
  dataset_map f rows = Ok out -> (row, cols) ∈ out -> row ∈ rows /\ f row = Ok cols.
Proof.
  intros Hmap. rewrite (dataset_map_ok rows out Hmap), list_elem_of_omap.
  intros (x & Hx & Hrow). unfold mapped_row in Hrow.
  destruct (f x) eqn:Hfx; [| discriminate]. by injection Hrow as -> ->.
Qed.

Lemma dataset_map_total rows :
  Forall (fun row => is_ok (f row) = true) rows ->
  exists out, dataset_map f rows = Ok out.
Proof.
  induction 1 as [| row rows Hrow _ [rest IH]]; cbn; [by eexists |].
  destruct (f row); [| discriminate]. cbn [mbind result_bind]. rewrite IH.
  by eexists.
Qed.

(** Mapping a rearrangement of the rows rearranges the mapped rows. *)
Lemma dataset_map_permutation rows rows' out out' :
  rows ≡ₚ rows' ->
  dataset_map f rows = Ok out ->
  dataset_map f rows' = Ok out' ->
  out ≡ₚ out'.
Proof.
  intros Hperm Hout Hout'.
  rewrite (dataset_map_ok rows out Hout), (dataset_map_ok rows' out' Hout').
  by rewrite Hperm.
Qed.

End DatasetMap.

(** ** Building the train and validation sets *)

Lemma generate_and_tokenize_prompt_total tk p (data_point : DataPoint) :
  pad_token_id tk = Some p ->
  well_formed data_point ->
  is_ok (generate_and_tokenize_prompt tk data_point) = true.
Proof.
  intros Hp [[input Hin] [target Htg]].
  by rewrite (generate_and_tokenize_prompt_ok tk p data_point input target).
Qed.

Lemma tokenize_rows_total tk p (rows : list DataPoint) :
  pad_token_id tk = Some p ->
  Forall well_formed rows ->
  exists out, dataset_map (generate_and_tokenize_prompt tk) rows = Ok out.
Proof.
  intros Hp Hrows. apply dataset_map_total.
  eapply Forall_impl; [exact Hrows |]. intros data_point.
  by apply (generate_and_tokenize_prompt_total tk p).
Qed.

Lemma Forall_select {A} (P : A -> Prop) (rows : list A) indices :
  Forall P rows -> Forall P (select rows indices).
Proof.
  rewrite !Forall_forall. intros Hrows x Hx. by apply Hrows, (select_elem_of _ indices).
Qed.

(** Enough rows, each with an [input] cell and a string for [target], and
    the datasets are built. *)
Lemma build_datasets_total rng seeds tk p val_set_size (rows : list DataPoint) :
  pad_token_id tk = Some p ->
  Forall well_formed rows ->
  val_set_size < len rows ->
  exists data, build_datasets rng seeds tk val_set_size rows = Ok data.
Proof.
  intros Hp Hrows Hlt. unfold build_datasets.
  destruct (Z.ltb_spec 0 val_set_size) as [Hpos | Hnonpos].
  - destruct (train_test_split_total rng rows val_set_size 42) as [sp Hsp];
      [done |].
    assert (Forall well_formed (split_train sp) /\ Forall well_formed (split_test sp))
      as [Htrain Htest].
    { revert Hsp. unfold train_test_split.
      destruct (_ && _); [| discriminate]. intros [= <-].
      split; by apply Forall_select. }
    rewrite Hsp. cbn [mbind result_bind].
    destruct (tokenize_rows_total tk p (shuffle rng seeds.1 (split_train sp)) Hp)
      as [train ->]; [by apply Forall_select |].
    cbn [mbind result_bind].
    destruct (tokenize_rows_total tk p (shuffle rng seeds.2 (split_test sp)) Hp)
      as [val ->]; [by apply Forall_select |].
    by eexists.
  - destruct (tokenize_rows_total tk p (shuffle rng seeds.1 rows) Hp)
      as [train ->]; [by apply Forall_select |].
    by eexists.
Qed.

Lemma build_datasets_split rng seeds tk val_set_size (rows : list DataPoint) data :
  0 < val_set_size ->
  build_datasets rng seeds tk val_set_size rows = Ok data ->
  exists sp train val,
    train_test_split rng rows val_set_size 42 = Ok sp
    /\ dataset_map (generate_and_tokenize_prompt tk)
         (shuffle rng seeds.1 (split_train sp)) = Ok train
    /\ dataset_map (generate_and_tokenize_prompt tk)
         (shuffle rng seeds.2 (split_test sp)) = Ok val
    /\ data = {| train_data := train; val_data := Some val |}.
Proof.
  intros Hpos. unfold build_datasets.
  destruct (Z.ltb_spec 0 val_set_size); [| lia].
  do 3 bind_ok. intros [= <-]. by eexists _, _, _.
Qed.

Lemma build_datasets_no_split rng seeds tk val_set_size (rows : list DataPoint) data :
  val_set_size <= 0 ->
  build_datasets rng seeds tk val_set_size rows = Ok data ->
  exists train,
    dataset_map (generate_and_tokenize_prompt tk) (shuffle rng seeds.1 rows)
    = Ok train
    /\ data = {| train_data := train; val_data := None |}.
Proof.
  intros Hle. unfold build_datasets.
  destruct (Z.ltb_spec 0 val_set_size); [lia |].
  bind_ok. intros [= <-]. by eexists.
Qed.

(** Every row of the built datasets is a raw row with its tokenization. *)
Lemma build_datasets_rows rng seeds tk val_set_size (rows : list DataPoint) data
    row rec :
  build_datasets rng seeds tk val_set_size rows = Ok data ->
  (row, rec) ∈ rows_of data ->
  row ∈ rows /\ generate_and_tokenize_prompt tk row = Ok rec.
Proof.
  intros Hdata. unfold rows_of. rewrite elem_of_app.
  destruct (Z.ltb_spec 0 val_set_size) as [Hpos | Hle].
  - destruct (build_datasets_split _ _ _ _ _ _ Hpos Hdata)
      as (sp & train & val & Hsp & Htrain & Hval & ->).
    cbn [train_data val_data default].
    assert (forall x, x ∈ split_train sp \/ x ∈ split_test sp -> x ∈ rows) as Hsub.
    { revert Hsp. unfold train_test_split.
      destruct (_ && _); [| discriminate]. intros [= <-] x.
      cbn [split_train split_test]. intros [Hx | Hx]; by eapply select_elem_of. }
    intros [Hin | Hin].
    + destruct (dataset_map_elem_of _ _ _ _ _ Htrain Hin) as [Hrow Hrec].
      split; [| done]. apply Hsub. left. by eapply select_elem_of.
    + destruct (dataset_map_elem_of _ _ _ _ _ Hval Hin) as [Hrow Hrec].
      split; [| done]. apply Hsub. right. by eapply select_elem_of.
  - destruct (build_datasets_no_split _ _ _ _ _ _ Hle Hdata) as (train & Htrain & ->).
    cbn [train_data val_data default].
    intros [Hin | Hin]; [| by apply elem_of_nil in Hin].
    destruct (dataset_map_elem_of _ _ _ _ _ Htrain Hin) as [Hrow Hrec].
    split; [| done]. by eapply select_elem_of.
Qed.

(** ** The run of the script *)

Section Run.
Context {Tensor : Type}.
Implicit Types (w : World Tensor) (cfg : Config) (data : Datasets).

Lemma run_with_unfold val_set_size w :
  run_with val_set_size w
  = match configure (read_int w) (environ w) with
    | Raise e => ([], Raise e)
    | Ok cfg =>
        match build_datasets (rng w) (fresh_seeds w)
                (script_tokenizer w) val_set_size (dataset_train w) with
        | Raise e => (loading_events cfg, Raise e)
        | Ok data =>
            (loading_events cfg ++ training_events w val_set_size cfg data, Ok tt)
        end
    end.
Proof.
  unfold run_with, training_events.
  destruct (configure (read_int w) (environ w)) as [cfg|]; [| reflexivity].
  destruct (build_datasets _ _ _ _ _) as [data|]; [| reflexivity].
  destruct (compiles w); reflexivity.
Qed.

Lemma main_with_unfold val_set_size w :
  main_with val_set_size w
  = match startup_assert (import_structure w) with
    | Raise e => ([], Raise e)
    | Ok _ => run_with val_set_size w
    end.
Proof.
  unfold main_with, lift, mbind, script_bind.
  destruct (startup_assert (import_structure w)); [| reflexivity].
  by destruct (run_with val_set_size w).
Qed.

(** A run that succeeds at every fallible step goes through. *)
Lemma main_with_success val_set_size w cfg data :
  startup_assert (import_structure w) = Ok tt ->
  configure (read_int w) (environ w) = Ok cfg ->
  build_datasets (rng w) (fresh_seeds w) (script_tokenizer w)
    val_set_size (dataset_train w) = Ok data ->
  main_with val_set_size w
  = (loading_events cfg ++ training_events w val_set_size cfg data, Ok tt).
Proof.
  intros Hstart Hcfg Hdata.
  by rewrite main_with_unfold, Hstart, run_with_unfold, Hcfg, Hdata.
Qed.

(** A run ends well only if every fallible step did. *)
Lemma main_with_ok_inv val_set_size w :
  outcome (main_with val_set_size w) = Ok tt ->
  exists cfg data,
    startup_assert (import_structure w) = Ok tt
    /\ configure (read_int w) (environ w) = Ok cfg
    /\ build_datasets (rng w) (fresh_seeds w) (script_tokenizer w)
         val_set_size (dataset_train w) = Ok data
    /\ trace (main_with val_set_size w)
       = loading_events cfg ++ training_events w val_set_size cfg data.
Proof.
  rewrite main_with_unfold.
  destruct (startup_assert (import_structure w)) as [[]|]; [| discriminate].
  rewrite run_with_unfold.
  destruct (configure (read_int w) (environ w)) as [cfg|]; [| discriminate].
  destruct (build_datasets _ _ _ _ _) as [data|]; [| discriminate].
  intros _. by exists cfg, data.
Qed.

(** The trainer is reached only by a run that ends well. *)
Lemma main_with_train_inv val_set_size w args tr ev :
  Train args tr ev ∈ trace (main_with val_set_size w) ->
  exists cfg data,
    startup_assert (import_structure w) = Ok tt
    /\ configure (read_int w) (environ w) = Ok cfg
    /\ build_datasets (rng w) (fresh_seeds w) (script_tokenizer w)
         val_set_size (dataset_train w) = Ok data
    /\ args = training_arguments val_set_size cfg
    /\ tr = train_data data
    /\ ev = val_data data.
Proof.
  rewrite main_with_unfold.
  destruct (startup_assert (import_structure w)) as [[]|];
    [| by intros ?%elem_of_nil].
  rewrite run_with_unfold.
  destruct (configure (read_int w) (environ w)) as [cfg|]; [| by intros ?%elem_of_nil].
  destruct (build_datasets _ _ _ _ _) as [data|]; cbn [trace fst].
  - unfold loading_events, training_events. intros Hin.
    exists cfg, data. do 3 (split; [reflexivity |]).
    destruct (compiles w); cbn in Hin;
      repeat (apply elem_of_cons in Hin as [Hin | Hin]; [try discriminate |]);
      try (by apply elem_of_nil in Hin); by injection Hin as -> -> ->.
  - unfold loading_events. intros Hin.
    repeat (apply elem_of_cons in Hin as [Hin | Hin]; [discriminate |]).
    by apply elem_of_nil in Hin.
Qed.

Lemma main_with_trains val_set_size w cfg data :
  startup_assert (import_structure w) = Ok tt ->
  configure (read_int w) (environ w) = Ok cfg ->
  build_datasets (rng w) (fresh_seeds w) (script_tokenizer w)
    val_set_size (dataset_train w) = Ok data ->
  Train (training_arguments val_set_size cfg) (train_data data) (val_data data)
  ∈ trace (main_with val_set_size w).
Proof.
  intros Hstart Hcfg Hdata.
  rewrite (main_with_success _ _ _ _ Hstart Hcfg Hdata). cbn [trace fst].
  unfold training_events. apply elem_of_app. right.
  apply elem_of_app. right. apply elem_of_cons. by left.
Qed.

(** No model is loaded by a run that fails the assertion. *)
Lemma main_with_assertion_fails val_set_size w e :
  startup_assert (import_structure w) = Raise e ->
  main_with val_set_size w = ([], Raise e).
Proof. intros Hstart. by rewrite main_with_unfold, Hstart. Qed.

(** ** The saved weights *)

Lemma get_peft_model_state_dict_lookup (state_dict : gmap string Tensor) name :
  get_peft_model_state_dict state_dict !! name
  = if contains "lora_" name then state_dict !! name else None.
Proof.
  apply option_eq. intros t. unfold get_peft_model_state_dict.
  rewrite map_lookup_filter_Some. cbn.
  destruct (contains "lora_" name); cbn; intuition discriminate.
Qed.

Lemma get_peft_model_state_dict_idemp (state_dict : gmap string Tensor) :
  get_peft_model_state_dict (get_peft_model_state_dict state_dict)
  = get_peft_model_state_dict state_dict.
Proof.
  apply map_eq. intros name. rewrite !get_peft_model_state_dict_lookup.
  by destruct (contains "lora_" name).
Qed.

End Run.

(** ** The claims about the run *)

Section RunClaims.
Context {Tensor : Type}.
Implicit Types (w : World Tensor).

(** C3: the gradient accumulation count handed to the trainer is
    [BATCH_SIZE // MICRO_BATCH_SIZE] = 2 when [WORLD_SIZE] is unset or
    reads as 1, and that count floor-divided by the world size otherwise. *)
Theorem gradient_accumulation_is_world_size_derived w args tr ev :
  Train args tr ev ∈ trace (main w) ->
  match environ w !! "WORLD_SIZE" with
  | None => gradient_accumulation_steps args = BATCH_SIZE `div` MICRO_BATCH_SIZE
  | Some s =>
      exists ws,
        int (read_int w) s = Ok ws
        /\ (ws = 1 ->
              gradient_accumulation_steps args = BATCH_SIZE `div` MICRO_BATCH_SIZE)
        /\ (ws <> 1 ->
              ws <> 0
              /\ gradient_accumulation_steps args
                 = (BATCH_SIZE `div` MICRO_BATCH_SIZE) `div` ws)
  end
  /\ BATCH_SIZE `div` MICRO_BATCH_SIZE = 2.
Proof.
  intros Hin.
  destruct (main_with_train_inv _ _ _ _ _ Hin) as (cfg & data & _ & Hcfg & _ & -> & _).
  pose proof (configure_world_size _ _ _ Hcfg) as Hws.
  destruct (configure_steps _ _ _ Hcfg) as [Hone Hmany].
  split; [| reflexivity]. cbn [gradient_accumulation_steps training_arguments].
  destruct (environ w !! "WORLD_SIZE") as [s|].
  - exists (world_size cfg). done.
  - by apply Hone.
Qed.



(** Padding positions of every tokenized row handed to the trainer hold
    the id 0, whatever pad token the tokenizer came with. *)
Lemma padding_positions_hold_zero w val_set_size args tr ev row rec :
  Train args tr ev ∈ trace (main_with val_set_size w) ->
  (row, rec) ∈ tr ++ default [] ev ->
  row ∈ dataset_train w
  /\ generate_and_tokenize_prompt (script_tokenizer w) row = Ok rec
  /\ exists input target,
       row !! "input" = Some input
       /\ row !! "target" = Some (Str target)
       /\ forall i : nat,
            (length (encode (pretrained_tokenizer w)
                       (user_prompt_of (render input) +:+ target) max_length) <= i
             < Z.to_nat CUTOFF_LEN)%nat ->
            input_ids rec !! i = Some 0.
Proof.
  intros Hin Hrow.
  destruct (main_with_train_inv _ _ _ _ _ Hin)
    as (cfg & data & _ & _ & Hdata & _ & -> & ->).
  destruct (build_datasets_rows _ _ _ _ _ _ _ _ Hdata Hrow) as [Hraw Hrec].
  do 2 (split; [done |]).
  destruct (generate_and_tokenize_prompt_inv _ _ _ Hrec)
    as (input & target & Hinput & Htarget).
  exists input, target. do 2 (split; [done |]).
  by apply (padding_holds_pad_token (script_tokenizer w) 0 row).
Qed.

(** The pad token the dataset code uses is the end-of-sequence token
    exactly when the vocabulary gives that token the id 0. *)
Lemma pad_token_is_eos_iff w :
  pad_token_id (script_tokenizer w) = eos_token_id (script_tokenizer w)
  <-> eos_token_id (pretrained_tokenizer w) = Some 0.
Proof. cbn. split; congruence. Qed.

(** C10: in a run that reaches the trainer with a positive validation size
    [v], the evaluation set has exactly [v] rows and the training set the
    others, both drawn by the split of seed 42, so that a second run over
    the same rows gets the same two sets up to the order of their rows;
    with a size that is not positive there is no evaluation set and every
    row is a training row.  The script runs with [v] = 2000. *)
Theorem validation_split_is_seeded_and_sized w val_set_size args tr ev :
  Train args tr ev ∈ trace (main_with val_set_size w) ->
  (0 < val_set_size ->
     exists val sp,
       ev = Some val
       /\ train_test_split (rng w) (dataset_train w) val_set_size 42
          = Ok sp
       /\ len val = val_set_size
       /\ len tr = len (dataset_train w) - val_set_size
       /\ val.*1 ≡ₚ split_test sp
       /\ tr.*1 ≡ₚ split_train sp
       /\ val.*1 ++ tr.*1 ≡ₚ dataset_train w
       /\ forall w' args' tr' ev',
            rng w' = rng w ->
            dataset_train w' = dataset_train w ->
            pretrained_tokenizer w' = pretrained_tokenizer w ->
            Train args' tr' ev' ∈ trace (main_with val_set_size w') ->
            exists val', ev' = Some val' /\ val' ≡ₚ val /\ tr' ≡ₚ tr)
  /\ (val_set_size <= 0 -> ev = None /\ tr.*1 ≡ₚ dataset_train w)
  /\ main = main_with (Tensor:=Tensor) 2000.
Proof.
  intros Hin.
  destruct (main_with_train_inv _ _ _ _ _ Hin)
    as (cfg & data & _ & _ & Hdata & _ & -> & ->).
  split; [| split; [| reflexivity]].
  - intros Hpos.
    destruct (build_datasets_split _ _ _ _ _ _ Hpos Hdata)
      as (sp & train & val & Hsp & Htrain & Hval & ->).
    cbn [train_data val_data]. exists val, sp.
    destruct (train_test_split_ok _ _ _ _ _ Hsp) as (_ & Hntest & Hntrain & Hall).
    pose proof (dataset_map_rows _ _ _ Htrain) as Htr.
    pose proof (dataset_map_rows _ _ _ Hval) as Hvl.
    split; [done |]. split; [done |].
    unfold len in *.
    rewrite (dataset_map_length _ _ _ Hval), (dataset_map_length _ _ _ Htrain),
      !shuffle_length.
    do 2 (split; [done |]).
    rewrite Htr, Hvl, !shuffle_permutation. do 3 (split; [done |]).
    intros w' args' tr' ev' Hrng Hrows Htk Hin'.
    destruct (main_with_train_inv _ _ _ _ _ Hin')
      as (cfg' & data' & _ & _ & Hdata' & _ & -> & ->).
    unfold script_tokenizer in Hdata'. rewrite Hrng, Hrows, Htk in Hdata'.
    destruct (build_datasets_split _ _ _ _ _ _ Hpos Hdata')
      as (sp' & train' & val' & Hsp' & Htrain' & Hval' & ->).
    rewrite Hsp in Hsp'. injection Hsp' as <-.
    cbn [train_data val_data]. exists val'. split; [done |]. split.
    + eapply dataset_map_permutation; [| exact Hval' | exact Hval].
      by rewrite !shuffle_permutation.
    + eapply dataset_map_permutation; [| exact Htrain' | exact Htrain].
      by rewrite !shuffle_permutation.
  - intros Hle.
    destruct (build_datasets_no_split _ _ _ _ _ _ Hle Hdata) as (train & Htrain & ->).
    cbn [train_data val_data]. split; [done |].
    by rewrite (dataset_map_rows _ _ _ Htrain), shuffle_permutation.
Qed.

End RunClaims.

(** ** The claims at concrete launches *)

Lemma w_ddp_starts : startup_assert (import_structure w_ddp) = Ok tt.
Proof. vm_compute. reflexivity. Qed.

Lemma w_ddp_configures :
  configure (read_int w_ddp) (environ w_ddp)
  = Ok {| device_map := OnDevice 1; world_size := 2; ddp := true;
          GRADIENT_ACCUMULATION_STEPS := 1 |}.
Proof. vm_compute. reflexivity. Qed.

Lemma dp0_well_formed : well_formed dp0.
Proof. split; eexists; vm_compute; reflexivity. Qed.

Lemma w_ddp_builds :
  exists data,
    build_datasets (rng w_ddp) (fresh_seeds w_ddp) (script_tokenizer w_ddp)
      VAL_SET_SIZE (dataset_train w_ddp) = Ok data.
Proof.
  apply (build_datasets_total _ _ _ 0); [reflexivity | |].
  - apply Forall_replicate, dp0_well_formed.
  - unfold len. cbn [dataset_train w_ddp world0]. rewrite length_replicate.
    vm_compute. reflexivity.
Qed.

Lemma gradient_accumulation_is_world_size_derived_witness :
  exists args tr ev,
    Train args tr ev ∈ trace (main w_ddp)
    /\ gradient_accumulation_steps args = 1.
Proof.
  destruct w_ddp_builds as [data Hdata].
  pose proof (main_with_trains _ _ _ _ w_ddp_starts w_ddp_configures Hdata) as Hin.
  eexists _, _, _. split; [exact Hin |].
  destruct (gradient_accumulation_is_world_size_derived w_ddp _ _ _ Hin)
    as [Hsteps _].
  assert (environ w_ddp !! "WORLD_SIZE" = Some "2") as Henv
    by (vm_compute; reflexivity).
  rewrite Henv in Hsteps. destruct Hsteps as (ws & Hws & _ & Hmany).
  vm_compute in Hws. injection Hws as <-.
  destruct Hmany as [_ ->]; [discriminate | reflexivity].
Defined.



Lemma w_small_trains (w : World Z) :
  import_structure w = llama_released ->
  environ w = ∅ ->
  pretrained_tokenizer w = char_tokenizer (Some 0) ->
  dataset_train w = [dp0; dp1; dp2] ->
  exists args tr ev, Train args tr ev ∈ trace (main_with 1 w).
Proof.
  intros Himp Henv Htk Hrows.
  destruct (build_datasets_total (rng w) (fresh_seeds w) (script_tokenizer w)
              0 1 (dataset_train w)) as [data Hdata].
  - reflexivity.
  - rewrite Hrows. repeat constructor; eexists; vm_compute; reflexivity.
  - rewrite Hrows. vm_compute. reflexivity.
  - eexists _, _, _. eapply main_with_trains; [| | exact Hdata].
    + rewrite Himp. vm_compute. reflexivity.
    + rewrite Henv. vm_compute. reflexivity.
Qed.

Lemma validation_split_is_seeded_and_sized_witness :
  exists args tr val args' tr' val',
    Train args tr (Some val) ∈ trace (main_with 1 w_small)
    /\ Train args' tr' (Some val') ∈ trace (main_with 1 w_small')
    /\ len val = 1 /\ len tr = 2
    /\ val' ≡ₚ val /\ tr' ≡ₚ tr.
Proof.
  destruct (w_small_trains w_small) as (args & tr & ev & Hin); try reflexivity.
  destruct (w_small_trains w_small') as (args' & tr' & ev' & Hin'); try reflexivity.
  destruct (validation_split_is_seeded_and_sized w_small 1 args tr ev Hin)
    as (Hsplit & _ & _).
  destruct Hsplit as (val & sp & -> & _ & Hval & Htr & _ & _ & _ & Hagain);
    [reflexivity |].
  destruct (Hagain w_small' args' tr' ev') as (val' & -> & Hval' & Htr');
    try reflexivity; [exact Hin' |].
  exists args, tr, val, args', tr', val'.
  repeat split; try done.
Defined.

(** C9: for the vocabulary of GPT-NeoX, where the end-of-sequence token
    has id 0, the pad token the script sets is that same token, and the
    padding of a tokenized row holds it. *)
Theorem pad_token_is_the_eos_token_of_neox :
  eos_token_id (pretrained_tokenizer w_ddp) = Some 0
  /\ pad_token_id (script_tokenizer w_ddp) = eos_token_id (script_tokenizer w_ddp)
  /\ exists rec,
       generate_and_tokenize_prompt (script_tokenizer w_ddp) dp0 = Ok rec
       /\ length (encode (script_tokenizer w_ddp)
                    (user_prompt_of "hi" +:+ "ok") max_length) = 208%nat
       /\ input_ids rec !! 208%nat = eos_token_id (script_tokenizer w_ddp)
       /\ input_ids rec !! 255%nat = eos_token_id (script_tokenizer w_ddp).
Proof.
  split; [reflexivity |]. split; [reflexivity |].
  eexists. split; [vm_compute; reflexivity |].
  repeat split; vm_compute; reflexivity.
Qed.

(** * Further properties of the script *)

(** ** Counting and freezing parameters *)

Lemma count_step_fold (named_parameters : NamedParameters) acc :
  fold_left count_step named_parameters acc
  = {| trainable_params :=
         trainable_params acc
         + total_numel (filter (fun p => requires_grad p = true) named_parameters.*2);
       all_param := all_param acc + total_numel named_parameters.*2 |}.
Proof.
  revert acc. induction named_parameters as [| [name param] ps IH]; intros acc.
  - destruct acc. cbn. f_equal; lia.
  - rewrite fmap_cons. cbn [fold_left snd]. rewrite IH, filter_cons.
    unfold count_step. cbn [snd trainable_params all_param].
    destruct (requires_grad param) eqn:Hgrad.
    + rewrite decide_True by done. unfold total_numel.
      rewrite !fmap_cons. cbn [sum_list sum_list_with]. unfold id. f_equal; lia.
    + rewrite decide_False by done. unfold total_numel.
      rewrite !fmap_cons. cbn [sum_list sum_list_with]. unfold id. f_equal; lia.
Qed.

Lemma total_numel_filter_le (P : Param -> Prop) `{!forall p, Decision (P p)}
    (params : list Param) :
  (total_numel (filter P params) <= total_numel params)%nat.
Proof.
  unfold total_numel. induction params as [| p params IH]; [done |].
  rewrite filter_cons. destruct (decide (P p)); cbn; lia.
Qed.

Lemma total_numel_zero (params : list Param) :
  total_numel params = 0%nat <-> Forall (fun p => numel p = 0%nat) params.
Proof.
  unfold total_numel. induction params as [| p params IH]; cbn.
  - split; [constructor | done].
  - rewrite Forall_cons, <- IH. lia.
Qed.

(** X1: the counts printed are the total size of the parameters and the
    size of those that require a gradient; the second never exceeds the
    first, and the first is positive whenever something is printed. *)
Theorem print_trainable_parameters_counts (named_parameters : NamedParameters)
    counts :
  print_trainable_parameters named_parameters = Ok counts ->
  all_param counts = total_numel named_parameters.*2
  /\ trainable_params counts
     = total_numel (filter (fun p => requires_grad p = true) named_parameters.*2)
  /\ (trainable_params counts <= all_param counts)%nat
  /\ (0 < all_param counts)%nat.
Proof.
  unfold print_trainable_parameters, count_parameters.
  rewrite count_step_fold. cbn [all_param trainable_params].
  destruct (Nat.eqb_spec (0 + total_numel named_parameters.*2) 0) as [| Hpos];
    [discriminate |].
  intros [= <-]. cbn [all_param trainable_params].
  repeat split; [| lia].
  cbn. apply total_numel_filter_le.
Qed.

Lemma print_trainable_parameters_counts_witness :
  exists counts,
    print_trainable_parameters params0 = Ok counts
    /\ all_param counts = 20%nat /\ trainable_params counts = 8%nat.
Proof.
  exists {| trainable_params := 8; all_param := 20 |}.
  destruct (print_trainable_parameters_counts params0
              {| trainable_params := 8; all_param := 20 |}) as (Hall & Htrain & _).
  - vm_compute. reflexivity.
  - split; [vm_compute; reflexivity |]. split; [exact Hall | exact Htrain].
Defined.

(** X2: the function fails with [ZeroDivisionError] exactly when no
    parameter has any element, the model without parameters included. *)
Theorem print_trainable_parameters_division_by_zero
    (named_parameters : NamedParameters) :
  print_trainable_parameters named_parameters = Raise ZeroDivisionError
  <-> Forall (fun entry => numel entry.2 = 0%nat) named_parameters.
Proof.
  unfold print_trainable_parameters, count_parameters.
  rewrite count_step_fold. cbn [all_param trainable_params].
  rewrite <- (Forall_fmap snd (fun p => numel p = 0%nat)), <- total_numel_zero.
  destruct (Nat.eqb_spec (0 + total_numel named_parameters.*2) 0) as [Hz | Hpos].
  - split; [lia | done].
  - split; [discriminate | lia].
Qed.

Lemma freeze_parameter_requires_grad b name param :
  requires_grad (freeze_parameter b name param) = false.
Proof.
  unfold freeze_parameter. destruct b; [| done].
  by destruct (_ && _).
Qed.

Lemma freeze_parameter_numel b name param :
  numel (freeze_parameter b name param) = numel param.
Proof.
  unfold freeze_parameter. destruct b; [| done].
  by destruct (_ && _).
Qed.

Lemma freeze_parameter_idemp b name param :
  freeze_parameter b name (freeze_parameter b name param)
  = freeze_parameter b name param.
Proof.
  unfold freeze_parameter. destruct b; [| done].
  cbn [ndim numel requires_grad dtype].
  destruct ((ndim param =? 1) && contains "layer_norm" name) eqn:Hnorm;
    cbn [ndim numel requires_grad dtype]; by rewrite Hnorm.
Qed.

Lemma frozen_none_requires_grad is_loaded_in_8bit
    (named_parameters : NamedParameters) :
  filter (fun p => requires_grad p = true)
    (freeze_base_model is_loaded_in_8bit named_parameters).*2 = [].
Proof.
  unfold freeze_base_model.
  induction named_parameters as [| [name param] ps IH]; [done |].
  rewrite !fmap_cons, filter_cons. cbn [snd fst].
  rewrite decide_False by (rewrite freeze_parameter_requires_grad; discriminate).
  exact IH.
Qed.

(** X3: after the freezing loop no parameter counts as trainable, and the
    total count is what it was before. *)
Theorem frozen_model_has_no_trainable_parameter is_loaded_in_8bit
    (named_parameters : NamedParameters) :
  count_parameters (freeze_base_model is_loaded_in_8bit named_parameters)
  = {| trainable_params := 0;
       all_param := all_param (count_parameters named_parameters) |}.
Proof.
  unfold count_parameters. rewrite !count_step_fold.
  cbn [all_param trainable_params]. rewrite frozen_none_requires_grad.
  f_equal. f_equal. unfold total_numel, freeze_base_model.
  rewrite <- !list_fmap_compose.
  apply (f_equal sum_list), list_fmap_ext. intros i [name param] _. cbn.
  apply freeze_parameter_numel.
Qed.

(** X4: the freezing loop keeps the names in order and running it again
    changes nothing; the dtype of a parameter becomes [torch.float16] when
    the model is loaded in 8 bits, the parameter has one dimension and its
    name mentions [layer_norm], and is left alone otherwise. *)
Theorem freeze_base_model_idempotent is_loaded_in_8bit
    (named_parameters : NamedParameters) :
  (freeze_base_model is_loaded_in_8bit named_parameters).*1 = named_parameters.*1
  /\ freeze_base_model is_loaded_in_8bit
       (freeze_base_model is_loaded_in_8bit named_parameters)
     = freeze_base_model is_loaded_in_8bit named_parameters
  /\ (forall (i : nat) name param,
        named_parameters !! i = Some (name, param) ->
        exists param',
          freeze_base_model is_loaded_in_8bit named_parameters !! i
          = Some (name, param')
          /\ dtype param'
             = if default false is_loaded_in_8bit && (ndim param =? 1)
                  && contains "layer_norm" name
               then "torch.float16" else dtype param).
Proof.
  unfold freeze_base_model. repeat split.
  - rewrite <- list_fmap_compose. by apply list_fmap_ext.
  - rewrite <- list_fmap_compose. apply list_fmap_ext. intros i [name param] _.
    cbn. by rewrite freeze_parameter_idemp.
  - intros i name param Hi. eexists. rewrite list_lookup_fmap, Hi.
    split; [reflexivity |]. cbn [fst snd]. unfold freeze_parameter.
    destruct (default false is_loaded_in_8bit); [| done].
    cbn [ndim andb]. by destruct (_ && _).
Qed.

Example freeze_base_model_of_neox_names :
  (fun entry => dtype entry.2) <$> freeze_base_model (Some true) params0
  = ["torch.int8"; "torch.float32"; "torch.float16"].
Proof. vm_compute. reflexivity. Qed.

(** ** Substrings *)

Lemma string_app_cons (c : ascii) (s t : string) :
  String c s +:+ t = String c (s +:+ t).
Proof. reflexivity. Qed.

Lemma prefix_spec (sub s : string) :
  String.prefix sub s = true <-> exists post, s = sub +:+ post.
Proof.
  revert s. induction sub as [| a sub IH]; intros s.
  - destruct s; cbn; split; try done; intros _; by eexists.
  - destruct s as [| b s]; cbn [String.prefix].
    + split; [discriminate |]. intros [post Hpost]. discriminate Hpost.
    + destruct (Ascii.ascii_dec a b) as [-> | Hne].
      * rewrite IH. split; intros [post Hpost]; exists post.
        -- by rewrite string_app_cons, <- Hpost.
        -- rewrite string_app_cons in Hpost. by injection Hpost.
      * split; [discriminate |]. intros [post Hpost].
        rewrite string_app_cons in Hpost. by injection Hpost as <- _.
Qed.

(** X5: [contains sub s], the test that picks the layer norms by name,
    holds exactly when [sub] occurs somewhere in [s]. *)
Theorem contains_iff_occurs (sub s : string) :
  contains sub s = true <-> exists pre post, s = pre +:+ sub +:+ post.
Proof.
  induction s as [| c s IH]; cbn [contains].
  - rewrite orb_false_r, prefix_spec. split.
    + intros [post Hpost]. by exists EmptyString, post.
    + intros (pre & post & Hs). destruct pre; [by exists post | discriminate Hs].
  - rewrite orb_true_iff, prefix_spec, IH. split.
    + intros [[post Hpost] | (pre & post & Hs)].
      * by exists EmptyString, post.
      * exists (String c pre), post. by rewrite string_app_cons, <- Hs.
    + intros (pre & post & Hs). destruct pre as [| c' pre].
      * left. by exists post.
      * right. rewrite string_app_cons in Hs. injection Hs as _ Hs.
        by exists pre, post.
Qed.

(** ** More on prompts and tokenized records *)

Lemma string_app_assoc (s t u : string) : (s +:+ t) +:+ u = s +:+ t +:+ u.
Proof.
  induction s as [| c s IH]; [done |].
  by rewrite !string_app_cons, IH.
Qed.

(** Closes the cases of a classification once every lookup is known. *)
Ltac close_cases :=
  unfold is_Some; repeat split; intros;
  repeat match goal with
         | H : _ /\ _ |- _ => destruct H
         | H : exists _, _ |- _ => destruct H
         end;
  try done; try congruence; eauto.

(** X6: [generate_and_tokenize_prompt] returns a record exactly when the
    row has an [input] cell (a string or not), its [target] cell is a
    string and the tokenizer has a pad token.  A row without the [input]
    column raises [KeyError] for it; with it, a row without the [target]
    column raises [KeyError] for that one, and a [target] cell that is
    not a string, [None] for one, raises [TypeError]; only then does a
    missing pad token raise [ValueError]. *)
Theorem generate_and_tokenize_prompt_failures tk (data_point : DataPoint) :
  (data_point !! "input" = None ->
     generate_and_tokenize_prompt tk data_point = Raise (KeyError "input"))
  /\ (is_Some (data_point !! "input") -> data_point !! "target" = None ->
        generate_and_tokenize_prompt tk data_point = Raise (KeyError "target"))
  /\ (forall shown,
        is_Some (data_point !! "input") ->
        data_point !! "target" = Some (NotStr shown) ->
        generate_and_tokenize_prompt tk data_point = Raise TypeError)
  /\ (well_formed data_point -> pad_token_id tk = None ->
        generate_and_tokenize_prompt tk data_point = Raise ValueError)
  /\ (is_ok (generate_and_tokenize_prompt tk data_point) = true
      <-> well_formed data_point /\ is_Some (pad_token_id tk)).
Proof.
  unfold well_formed, generate_and_tokenize_prompt, getitem.
  destruct (data_point !! "input") as [input|];
    cbn [mbind result_bind]; rewrite ?tokenizer_call_no_padding;
    cbn [mbind result_bind]; [| close_cases].
  destruct (data_point !! "target") as [[target|]|];
    cbn [mbind result_bind add_str]; [| close_cases..].
  unfold tokenizer_call.
  destruct (pad_token_id tk) as [p|]; cbn [mbind result_bind is_ok]; close_cases.
Qed.

(** X7: the text [generate_prompt] builds is never the text that
    [generate_and_tokenize_prompt] tokenizes: the latter is indented inside
    its template. *)
Theorem generate_prompt_is_not_the_tokenized_text (data_point : DataPoint)
    input target :
  data_point !! "input" = Some input ->
  data_point !! "target" = Some (Str target) ->
  exists text,
    generate_prompt data_point = Ok text
    /\ text <> user_prompt_of (render input) +:+ target.
Proof.
  intros Hin Htg. unfold generate_prompt, getitem. rewrite Hin, Htg.
  cbn [mbind result_bind]. eexists. split; [reflexivity |].
  unfold user_prompt_of. rewrite !string_app_assoc.
  intros Heq. do 3 apply String.app_inj in Heq. discriminate Heq.
Qed.

Lemma generate_prompt_is_not_the_tokenized_text_witness :
  exists text,
    generate_prompt dp0 = Ok text /\ text <> user_prompt_of "hi" +:+ "ok".
Proof.
  apply (generate_prompt_is_not_the_tokenized_text dp0 (Str "hi") "ok").
  - vm_compute. reflexivity.
  - vm_compute. reflexivity.
Defined.

(** X8: the input ids of a record are those [tokenize] returns for the
    user prompt followed by the target. *)
Theorem input_ids_are_those_of_tokenize tk (data_point : DataPoint) input target
    rec :
  data_point !! "input" = Some input ->
  data_point !! "target" = Some (Str target) ->
  generate_and_tokenize_prompt tk data_point = Ok rec ->
  exists t,
    tokenize tk (user_prompt_of (render input) +:+ target) = Ok t
    /\ t_input_ids t = input_ids rec.
Proof.
  intros Hin Htg. unfold generate_and_tokenize_prompt, tokenize, getitem.
  rewrite Hin, Htg. cbn [mbind result_bind].
  rewrite tokenizer_call_no_padding. cbn [mbind result_bind add_str].
  destruct (tokenizer_call tk _ _ true) as [full|]; [| discriminate].
  cbn [mbind result_bind]. intros [= <-]. by eexists.
Qed.

Lemma input_ids_are_those_of_tokenize_witness :
  exists rec t,
    generate_and_tokenize_prompt tk0 dp0 = Ok rec
    /\ tokenize tk0 (user_prompt_of "hi" +:+ "ok") = Ok t
    /\ t_input_ids t = input_ids rec.
Proof.
  destruct (generate_and_tokenize_prompt tk0 dp0) as [rec|] eqn:Hrec;
    [| vm_compute in Hrec; discriminate].
  destruct (input_ids_are_those_of_tokenize tk0 dp0 (Str "hi") "ok" rec)
    as (t & Ht & Hids).
  - vm_compute. reflexivity.
  - vm_compute. reflexivity.
  - exact Hrec.
  - by exists rec, t.
Defined.

(** X9: the attention mask [tokenize] returns has [CUTOFF_LEN] entries, 1
    on the ids of the prompt and 0 on the padding. *)
Theorem tokenize_attention_mask tk prompt t :
  tokenize tk prompt = Ok t ->
  len (t_attention_mask t) = CUTOFF_LEN
  /\ forall i : nat,
       (i < Z.to_nat CUTOFF_LEN)%nat ->
       t_attention_mask t !! i
       = Some (if bool_decide (i < length (encode tk prompt max_length))%nat
               then 1 else 0).
Proof.
  unfold tokenize, tokenizer_call.
  change (Z.to_nat (CUTOFF_LEN + 1)) with max_length.
  destruct (pad_token_id tk) as [p|]; [| discriminate].
  cbn [mbind result_bind be_attention_mask]. intros [= <-].
  cbn [t_attention_mask].
  pose proof (encode_truncated tk prompt max_length) as Hle.
  pose proof max_length_eq as Hmax. pose proof cutoff_len_eq as Hcut.
  set (ids := encode tk prompt max_length) in *.
  rewrite slice_to_minus_one.
  rewrite length_app, !length_replicate.
  replace (length ids + (max_length - length ids) - 1)%nat with 256%nat by lia.
  split.
  - unfold len. rewrite length_take, length_app, !length_replicate.
    unfold CUTOFF_LEN. lia.
  - intros i Hi. rewrite lookup_take_lt by lia. case_bool_decide as Hin.
    + rewrite lookup_app_l by (rewrite length_replicate; lia).
      by apply lookup_replicate_2.
    + rewrite lookup_app_r by (rewrite length_replicate; lia).
      apply lookup_replicate_2. rewrite length_replicate. lia.
Qed.

Lemma tokenize_attention_mask_witness :
  exists t,
    tokenize tk0 "hi" = Ok t
    /\ t_attention_mask t !! 1%nat = Some 1
    /\ t_attention_mask t !! 2%nat = Some 0.
Proof.
  destruct (tokenize tk0 "hi") as [t|] eqn:Ht; [| vm_compute in Ht; discriminate].
  destruct (tokenize_attention_mask tk0 "hi" t Ht) as [_ Hmask].
  exists t. split; [reflexivity |]. split.
  - rewrite Hmask by (vm_compute; apply Nat.leb_le; reflexivity). reflexivity.
  - rewrite Hmask by (vm_compute; apply Nat.leb_le; reflexivity). reflexivity.
Defined.

(** X10: when the user prompt alone fills the window of [CUTOFF_LEN + 1]
    ids, every label of the record is the sentinel. *)
Theorem labels_all_masked_when_prompt_fills_window tk p (data_point : DataPoint)
    input target :
  pad_token_id tk = Some p ->
  data_point !! "input" = Some input ->
  data_point !! "target" = Some (Str target) ->
  length (encode tk (user_prompt_of (render input)) max_length) = max_length ->
  exists rec,
    generate_and_tokenize_prompt tk data_point = Ok rec
    /\ labels rec = replicate (Z.to_nat CUTOFF_LEN) (-100).
Proof.
  intros Hp Hin Htg Hfull. eexists.
  split; [by apply (generate_and_tokenize_prompt_ok tk p) |]. cbn [labels].
  assert (len_user_prompt_tokens tk (render input) = CUTOFF_LEN) as ->.
  { unfold len_user_prompt_tokens, len. rewrite Hfull, max_length_eq. reflexivity. }
  rewrite slice_from_nonneg by done.
  rewrite drop_ge by (by rewrite full_tokens_length).
  by rewrite app_nil_r.
Qed.

Lemma labels_all_masked_when_prompt_fills_window_witness :
  exists rec,
    generate_and_tokenize_prompt tk0 dp_long = Ok rec
    /\ labels rec = replicate 256 (-100).
Proof.
  apply (labels_all_masked_when_prompt_fills_window tk0 0 dp_long
           (Str "Translate the following sentence into French, German and Spanish.")
           "ok").
  - reflexivity.
  - vm_compute. reflexivity.
  - vm_compute. reflexivity.
  - vm_compute. reflexivity.
Defined.

(** X11: past the masked span, the labels of the padding positions hold
    the pad token id, not the sentinel. *)
Theorem labels_of_padding_hold_pad_token tk p (data_point : DataPoint)
    input target rec (i : nat) :
  pad_token_id tk = Some p ->
  data_point !! "input" = Some input ->
  data_point !! "target" = Some (Str target) ->
  generate_and_tokenize_prompt tk data_point = Ok rec ->
  0 <= len_user_prompt_tokens tk (render input) <= Z.of_nat i ->
  (length (encode tk (user_prompt_of (render input) +:+ target) max_length) <= i
   < Z.to_nat CUTOFF_LEN)%nat ->
  labels rec !! i = Some p.
Proof.
  intros Hp Hin Htg Hrec Hn Hi.
  rewrite <- (padding_holds_pad_token tk p data_point input target rec
               Hp Hin Htg Hrec i Hi).
  rewrite (generate_and_tokenize_prompt_ok tk p data_point input target) in Hrec
    by done.
  injection Hrec as <-. cbn [labels input_ids].
  by apply masked_labels_above.
Qed.

Lemma labels_of_padding_hold_pad_token_witness :
  exists rec,
    generate_and_tokenize_prompt tk0 dp0 = Ok rec
    /\ labels rec !! 255%nat = Some 0.
Proof.
  destruct (generate_and_tokenize_prompt tk0 dp0) as [rec|] eqn:Hrec;
    [| vm_compute in Hrec; discriminate].
  exists rec. split; [reflexivity |].
  apply (labels_of_padding_hold_pad_token tk0 0 dp0 (Str "hi") "ok" rec 255).
  - reflexivity.
  - vm_compute. reflexivity.
  - vm_compute. reflexivity.
  - exact Hrec.
  - vm_compute. split; discriminate.
  - vm_compute. split; apply Nat.leb_le; reflexivity.
Defined.

(** X12: when the text fills the window there is no padding, and the last
    id kept by the truncation is dropped all the same. *)
Theorem input_ids_of_text_filling_window tk p (data_point : DataPoint)
    input target :
  pad_token_id tk = Some p ->
  data_point !! "input" = Some input ->
  data_point !! "target" = Some (Str target) ->
  length (encode tk (user_prompt_of (render input) +:+ target) max_length) = max_length ->
  exists rec final,
    generate_and_tokenize_prompt tk data_point = Ok rec
    /\ encode tk (user_prompt_of (render input) +:+ target) max_length
       = input_ids rec ++ [final].
Proof.
  intros Hp Hin Htg Hfull.
  destruct (encode tk (user_prompt_of (render input) +:+ target) max_length)
    as [| final ids _] eqn:Hids using rev_ind;
    [by rewrite max_length_eq in Hfull |].
  eexists _, final.
  split; [by apply (generate_and_tokenize_prompt_ok tk p) |]. cbn [input_ids].
  unfold padded_ids. rewrite Hids, Hfull, Nat.sub_diag. cbn [replicate].
  rewrite app_nil_r, take_app_length'; [done |].
  rewrite length_app, max_length_eq in Hfull. cbn in Hfull.
  rewrite cutoff_len_eq. lia.
Qed.

Lemma input_ids_of_text_filling_window_witness :
  exists rec final,
    generate_and_tokenize_prompt tk0 dp_long = Ok rec
    /\ length (input_ids rec ++ [final]) = 257%nat.
Proof.
  destruct (input_ids_of_text_filling_window tk0 0 dp_long
              (Str "Translate the following sentence into French, German and Spanish.")
              "ok") as (rec & final & Hrec & Hids).
  - reflexivity.
  - vm_compute. reflexivity.
  - vm_compute. reflexivity.
  - vm_compute. reflexivity.
  - exists rec, final. split; [exact Hrec |]. rewrite <- Hids.
    vm_compute. reflexivity.
Defined.

(** ** More on batch sizing *)

(** How the script reads [LOCAL_RANK]. *)
Lemma configure_unfold (read : string -> option Z)
    (environ : gmap string string) :
  configure read environ
  = world_size ← match environ !! "WORLD_SIZE" with
                 | Some s => int read s
                 | None => Ok 1
                 end;
    if negb (world_size =? 1) then
      local_rank ← match environ !! "LOCAL_RANK" with
                   | Some s => if String.eqb s EmptyString then Ok 0 else int read s
                   | None => Ok 0
                   end;
      steps' ← floordiv (BATCH_SIZE `div` MICRO_BATCH_SIZE) world_size;
      Ok {| device_map := OnDevice local_rank; world_size := world_size;
            ddp := true; GRADIENT_ACCUMULATION_STEPS := steps' |}
    else
      Ok {| device_map := Auto; world_size := world_size;
            ddp := false; GRADIENT_ACCUMULATION_STEPS := BATCH_SIZE `div` MICRO_BATCH_SIZE |}.
Proof.
  unfold configure, get. rewrite floordiv_batch. cbn [mbind result_bind].
  destruct (match environ !! "WORLD_SIZE" with Some _ => _ | None => _ end)
    as [ws|]; [| done].
  cbn [mbind result_bind]. by destruct (negb (ws =? 1)).
Qed.

(** X13: the configuration succeeds exactly when [WORLD_SIZE] is unset, or
    [int] reads it as 1, or [int] reads it as an integer other than 0 and
    [LOCAL_RANK] is unset, empty or read by [int]; when it fails, it is
    with [ValueError] or [ZeroDivisionError]. *)
Theorem configure_succeeds_iff (read : string -> option Z)
    (environ : gmap string string) :
  (is_ok (configure read environ) = true
   <-> match environ !! "WORLD_SIZE" with
       | None => True
       | Some s =>
           exists ws,
             int read s = Ok ws
             /\ (ws = 1
                 \/ (ws <> 0
                     /\ match environ !! "LOCAL_RANK" with
                        | None => True
                        | Some rank =>
                            rank = EmptyString \/ is_ok (int read rank) = true
                        end))
       end)
  /\ (forall e,
        configure read environ = Raise e ->
        e = ValueError \/ e = ZeroDivisionError).
Proof.
  split.
  2:{ intros e. rewrite configure_unfold. unfold int, floordiv.
      repeat match goal with
             | |- context [match ?x with _ => _ end] =>
                 lazymatch x with
                 | context [match _ with _ => _ end] => fail
                 | _ => destruct x
                 end; cbn [mbind result_bind negb]
             end;
        first [discriminate | intros [= <-]; auto]. }
  rewrite configure_unfold.
  destruct (environ !! "WORLD_SIZE") as [s|]; [| done].
  destruct (int read s) as [ws|]; cbn [mbind result_bind].
  2:{ split; [done |]. by intros (ws & Hws & _). }
  destruct (Z.eqb_spec ws 1) as [-> | Hne]; cbn [negb].
  { split; [| done]. intros _. exists 1. split; [done |]. by left. }
  assert (forall r : result Z,
            is_ok (local_rank ← r;
                   steps' ← floordiv (BATCH_SIZE `div` MICRO_BATCH_SIZE) ws;
                   Ok {| device_map := OnDevice local_rank; world_size := ws;
                         ddp := true; GRADIENT_ACCUMULATION_STEPS := steps' |})
            = true
            <-> is_ok r = true /\ ws <> 0) as Hbind.
  { intros [rank|]; cbn [mbind result_bind is_ok].
    - unfold floordiv.
      destruct (Z.eqb_spec ws 0) as [-> | Hnz]; cbn [mbind result_bind is_ok].
      + split; [done | by intros [_ ?]].
      + split; done.
    - split; [done | by intros [? _]]. }
  rewrite Hbind. split.
  - intros [Hrank Hnz]. exists ws. split; [done |]. right. split; [done |].
    destruct (environ !! "LOCAL_RANK") as [rank|]; [| done].
    destruct (String.eqb_spec rank EmptyString); [by left | by right].
  - intros (ws' & [= <-] & [-> | [Hnz Hrank]]); [done |]. split; [| done].
    destruct (environ !! "LOCAL_RANK") as [rank|]; [| done].
    destruct (String.eqb_spec rank EmptyString) as [-> | Hrk]; [done |].
    by destruct Hrank.
Qed.

(** X14: with more than two processes the accumulation count is 0; for a
    positive world size the batch of one optimizer step,
    [MICRO_BATCH_SIZE] times the count times the world size, is
    [BATCH_SIZE] only for one or two processes; a negative world size
    gives a negative count. *)
Theorem accumulation_steps_by_world_size (read : string -> option Z)
    (environ : gmap string string) cfg :
  configure read environ = Ok cfg ->
  (2 < world_size cfg -> GRADIENT_ACCUMULATION_STEPS cfg = 0)
  /\ (0 < world_size cfg ->
        (MICRO_BATCH_SIZE * GRADIENT_ACCUMULATION_STEPS cfg * world_size cfg
         = BATCH_SIZE
         <-> world_size cfg = 1 \/ world_size cfg = 2))
  /\ (world_size cfg < 0 -> GRADIENT_ACCUMULATION_STEPS cfg < 0).
Proof.
  intros Hcfg. destruct (configure_steps _ _ _ Hcfg) as [Hone Hmany].
  rewrite steps_per_batch in *. unfold MICRO_BATCH_SIZE, BATCH_SIZE.
  repeat split.
  - intros Hws. destruct Hmany as [_ ->]; [lia |]. apply Z.div_small. lia.
  - intros Hprod.
    destruct (decide (world_size cfg = 1)) as [| Hne]; [by left |]. right.
    destruct Hmany as [_ Hsteps]; [done |]. rewrite Hsteps in Hprod.
    destruct (decide (world_size cfg = 2)) as [| Hne2]; [done |].
    rewrite Z.div_small in Hprod by lia. lia.
  - intros [Hws | Hws].
    + rewrite (Hone Hws), Hws. reflexivity.
    + destruct Hmany as [_ ->]; [lia |]. rewrite Hws. reflexivity.
  - intros Hneg. destruct Hmany as [_ ->]; [lia |].
    pose proof (Z.div_mod 2 (world_size cfg)).
    pose proof (Z.mod_neg_bound 2 (world_size cfg)). nia.
Qed.

Lemma accumulation_steps_by_world_size_witness :
  exists cfg,
    configure ascii_decimal {[ "WORLD_SIZE" := "4" ]} = Ok cfg
    /\ GRADIENT_ACCUMULATION_STEPS cfg = 0.
Proof.
  pose (cfg := {| device_map := OnDevice 0; world_size := 4; ddp := true;
                  GRADIENT_ACCUMULATION_STEPS := 0 |}).
  assert (configure ascii_decimal {[ "WORLD_SIZE" := "4" ]} = Ok cfg) as Hcfg
    by (vm_compute; reflexivity).
  exists cfg. split; [exact Hcfg |].
  destruct (accumulation_steps_by_world_size _ _ cfg Hcfg) as [Hzero _].
  apply Hzero. reflexivity.
Defined.

(** X15: a single process never reads [LOCAL_RANK]: whatever its value,
    the model goes wherever the loader puts it and two steps are
    accumulated. *)
Theorem single_process_ignores_local_rank (read : string -> option Z)
    (environ : gmap string string) rank :
  (environ !! "WORLD_SIZE" = None
   \/ exists s, environ !! "WORLD_SIZE" = Some s /\ int read s = Ok 1) ->
  configure read (<["LOCAL_RANK" := rank]> environ)
  = Ok {| device_map := Auto; world_size := 1; ddp := false;
          GRADIENT_ACCUMULATION_STEPS := 2 |}.
Proof.
  intros Hws. rewrite configure_unfold.
  rewrite (lookup_insert_ne environ "LOCAL_RANK" "WORLD_SIZE") by done.
  destruct Hws as [-> | (s & -> & ->)]; reflexivity.
Qed.

Lemma single_process_ignores_local_rank_witness :
  configure ascii_decimal {[ "LOCAL_RANK" := "not a number"; "WORLD_SIZE" := " 1 " ]}
  = Ok {| device_map := Auto; world_size := 1; ddp := false;
          GRADIENT_ACCUMULATION_STEPS := 2 |}.
Proof.
  apply (single_process_ignores_local_rank ascii_decimal {[ "WORLD_SIZE" := " 1 " ]}).
  right. exists " 1 ". split; vm_compute; reflexivity.
Defined.

(** X16: in a distributed launch the whole model goes to the device named
    by [LOCAL_RANK], device 0 when the variable is unset or empty; a
    single process leaves the placement to the loader. *)
Theorem device_map_follows_local_rank (read : string -> option Z)
    (environ : gmap string string) cfg :
  configure read environ = Ok cfg ->
  (world_size cfg = 1 -> device_map cfg = Auto /\ ddp cfg = false)
  /\ (world_size cfg <> 1 ->
        ddp cfg = true
        /\ exists local_rank,
             device_map cfg = OnDevice local_rank
             /\ match environ !! "LOCAL_RANK" with
                | None => local_rank = 0
                | Some s =>
                    if String.eqb s EmptyString then local_rank = 0
                    else int read s = Ok local_rank
                end).
Proof.
  rewrite configure_unfold. bind_ok. rename a into ws.
  destruct (Z.eqb_spec ws 1) as [-> | Hne]; cbn [negb].
  - intros [= <-]. cbn. split; [done |]. done.
  - destruct (match environ !! "LOCAL_RANK" with Some _ => _ | None => _ end)
      as [local_rank|] eqn:Hrank; cbn [mbind result_bind]; [| discriminate].
    bind_ok. intros [= <-]. cbn. split; [done |]. intros _. split; [done |].
    exists local_rank. split; [done |].
    destruct (environ !! "LOCAL_RANK") as [s|]; [| by injection Hrank].
    destruct (String.eqb s EmptyString); [by injection Hrank | done].
Qed.

Lemma device_map_follows_local_rank_witness :
  exists cfg,
    configure ascii_decimal {[ "WORLD_SIZE" := "2"; "LOCAL_RANK" := "1" ]} = Ok cfg
    /\ ddp cfg = true /\ device_map cfg = OnDevice 1.
Proof.
  pose (cfg := {| device_map := OnDevice 1; world_size := 2; ddp := true;
                  GRADIENT_ACCUMULATION_STEPS := 1 |}).
  assert (configure ascii_decimal {[ "WORLD_SIZE" := "2"; "LOCAL_RANK" := "1" ]} = Ok cfg)
    as Hcfg by (vm_compute; reflexivity).
  exists cfg. split; [exact Hcfg |].
  destruct (device_map_follows_local_rank _ _ cfg Hcfg) as [_ Hddp].
  destruct Hddp as (Hflag & _); [discriminate |]. by split.
Defined.

(** ** More on the datasets and the run *)

Lemma dataset_map_all_ok {A B} (f : A -> result B) rows out row :
  dataset_map f rows = Ok out -> row ∈ rows -> is_ok (f row) = true.
Proof.
  intros Hmap Hrow. rewrite <- (dataset_map_rows f rows out Hmap) in Hrow.
  apply list_elem_of_fmap in Hrow as ([row' cols] & -> & Hin).
  destruct (dataset_map_elem_of f rows out row' cols Hmap Hin) as [_ Hcols].
  cbn. by rewrite Hcols.
Qed.

Lemma dataset_map_raises {A B} (f : A -> result B) rows e :
  dataset_map f rows = Raise e -> exists row, row ∈ rows /\ f row = Raise e.
Proof.
  induction rows as [| row rows IH]; cbn; [discriminate |].
  destruct (f row) as [cols|e'] eqn:Hrow; cbn [mbind result_bind].
  - destruct (dataset_map f rows) as [rest|e'']; cbn [mbind result_bind];
      [discriminate |].
    intros [= ->]. destruct IH as (row' & Hin & Hraise); [done |].
    exists row'. split; [by right | done].
  - intros [= ->]. exists row. split; [by left | done].
Qed.

Lemma generate_and_tokenize_prompt_well_formed tk (data_point : DataPoint) :
  is_ok (generate_and_tokenize_prompt tk data_point) = true ->
  well_formed data_point.
Proof.
  destruct (generate_and_tokenize_prompt tk data_point) as [rec|] eqn:Hrec;
    [| discriminate].
  intros _. destruct (generate_and_tokenize_prompt_inv _ _ _ Hrec)
    as (input & target & Hin & Htg).
  split; by eexists.
Qed.

(** The rows of a built dataset, put side by side, are the raw rows. *)
Lemma build_datasets_partition rng seeds tk val_set_size (rows : list DataPoint)
    data :
  build_datasets rng seeds tk val_set_size rows = Ok data ->
  (default [] (val_data data)).*1 ++ (train_data data).*1 ≡ₚ rows.
Proof.
  intros Hdata. destruct (Z.ltb_spec 0 val_set_size) as [Hpos | Hle].
  - destruct (build_datasets_split _ _ _ _ _ _ Hpos Hdata)
      as (sp & train & val & Hsp & Htrain & Hval & ->).
    cbn [train_data val_data from_option id].
    rewrite (dataset_map_rows _ _ _ Htrain), (dataset_map_rows _ _ _ Hval),
      !shuffle_permutation.
    by destruct (train_test_split_ok _ _ _ _ _ Hsp) as (_ & _ & _ & Hall).
  - destruct (build_datasets_no_split _ _ _ _ _ _ Hle Hdata) as (train & Htrain & ->).
    cbn [train_data val_data from_option id fmap list_fmap app].
    by rewrite (dataset_map_rows _ _ _ Htrain), shuffle_permutation.
Qed.

(** A build that succeeds had rows that can be tokenized and sizes that
    fit. *)
Lemma build_datasets_ok_inv rng seeds tk val_set_size (rows : list DataPoint) data :
  build_datasets rng seeds tk val_set_size rows = Ok data ->
  Forall well_formed rows /\ (val_set_size <= 0 \/ val_set_size < len rows).
Proof.
  intros Hdata. split.
  - rewrite <- (build_datasets_partition _ _ _ _ _ _ Hdata).
    apply Forall_forall. intros row Hrow. rewrite <- fmap_app in Hrow.
    apply list_elem_of_fmap in Hrow as ([row' rec] & -> & Hin).
    destruct (build_datasets_rows _ _ _ _ _ _ row' rec Hdata) as [_ Hrec].
    { unfold rows_of. rewrite elem_of_app in *. tauto. }
    apply (generate_and_tokenize_prompt_well_formed tk). cbn. by rewrite Hrec.
  - destruct (Z.ltb_spec 0 val_set_size) as [Hpos | Hle]; [right | by left].
    destruct (build_datasets_split _ _ _ _ _ _ Hpos Hdata)
      as (sp & _ & _ & Hsp & _).
    by destruct (train_test_split_ok _ _ _ _ _ Hsp) as ([_ Hlt] & _).
Qed.

(** With a pad token, the tokenization of a row fails only on a missing
    column or on a [target] cell that is not a string. *)
Lemma generate_and_tokenize_prompt_raises tk p (data_point : DataPoint) e :
  pad_token_id tk = Some p ->
  generate_and_tokenize_prompt tk data_point = Raise e ->
  (e = KeyError "input" /\ data_point !! "input" = None)
  \/ (e = KeyError "target" /\ data_point !! "target" = None)
  \/ (e = TypeError /\ exists shown, data_point !! "target" = Some (NotStr shown)).
Proof.
  intros Hp. unfold generate_and_tokenize_prompt, getitem.
  destruct (data_point !! "input") as [input|]; cbn [mbind result_bind];
    [| intros [= <-]; by left].
  rewrite tokenizer_call_no_padding. cbn [mbind result_bind].
  destruct (data_point !! "target") as [[target|]|];
    cbn [mbind result_bind add_str].
  - unfold tokenizer_call. rewrite Hp. discriminate.
  - intros [= <-]. right. right. eauto.
  - intros [= <-]. right. by left.
Qed.

(** A build fails on the sizes, or on a raw row with the exception of its
    tokenization. *)
Lemma build_datasets_raises rng seeds tk val_set_size (rows : list DataPoint) e :
  build_datasets rng seeds tk val_set_size rows = Raise e ->
  (e = ValueError /\ 0 < val_set_size /\ len rows <= val_set_size)
  \/ exists row, row ∈ rows /\ generate_and_tokenize_prompt tk row = Raise e.
Proof.
  assert (forall indices indices' e',
            dataset_map (generate_and_tokenize_prompt tk)
              (select (select rows indices) indices') = Raise e' ->
            exists row, row ∈ rows /\ generate_and_tokenize_prompt tk row = Raise e')
    as Hrow.
  { intros indices indices' e' Hmap.
    destruct (dataset_map_raises _ _ _ Hmap) as (row & Hin & Hraise).
    exists row. split; [| done]. by do 2 apply select_elem_of in Hin. }
  unfold build_datasets, train_test_split.
  destruct (Z.ltb_spec 0 val_set_size) as [Hpos | Hle]; cbn [andb].
  - destruct (Z.ltb_spec val_set_size (len rows)) as [Hlt | Hge];
      cbn [mbind result_bind split_train split_test].
    + destruct (dataset_map _ (shuffle rng seeds.1 _)) as [train|e1] eqn:Htrain;
        cbn [mbind result_bind].
      * destruct (dataset_map _ (shuffle rng seeds.2 _)) as [val|e2] eqn:Hval;
          cbn [mbind result_bind]; [discriminate |].
        intros [= <-]. right. by apply (Hrow _ _ _ Hval).
      * intros [= <-]. right. by apply (Hrow _ _ _ Htrain).
    + intros [= <-]. by left.
  - destruct (dataset_map _ (shuffle rng seeds.1 rows)) as [train|e1] eqn:Htrain;
      cbn [mbind result_bind]; [discriminate |].
    intros [= <-]. right.
    destruct (dataset_map_raises _ _ _ Htrain) as (row & Hin & Hraise).
    exists row. split; [| done]. by apply select_elem_of in Hin.
Qed.

(** X17: with a pad token, the datasets are built exactly when every raw
    row has an [input] cell (a string or not) and a string for
    [target], and the validation size, if positive, is smaller than the
    number of rows. *)
Theorem build_datasets_succeeds_iff rng seeds tk p val_set_size
    (rows : list DataPoint) :
  pad_token_id tk = Some p ->
  is_ok (build_datasets rng seeds tk val_set_size rows) = true
  <-> Forall well_formed rows /\ (val_set_size <= 0 \/ val_set_size < len rows).
Proof.
  intros Hp. split.
  - destruct (build_datasets rng seeds tk val_set_size rows) as [data|] eqn:Hdata;
      [| discriminate].
    intros _. by apply (build_datasets_ok_inv rng seeds tk val_set_size rows data).
  - intros [Hrows Hsize].
    destruct (Z.ltb_spec 0 val_set_size) as [Hpos | Hle].
    + destruct (build_datasets_total rng seeds tk p val_set_size rows)
        as [data ->]; [done | done | lia | done].
    + unfold build_datasets. destruct (Z.ltb_spec 0 val_set_size); [lia |].
      destruct (tokenize_rows_total tk p (shuffle rng seeds.1 rows) Hp)
        as [train ->]; [by apply Forall_select | done].
Qed.

Lemma build_datasets_succeeds_iff_witness :
  is_ok (build_datasets flip_rng (7, 12) tk0 1 [dp0; dp1; dp2]) = true
  /\ is_ok (build_datasets flip_rng (7, 12) tk0 1 [dp0; dp_null_target; dp2]) = false
  /\ is_ok (build_datasets flip_rng (7, 12) tk0 3 [dp0; dp1; dp2]) = false.
Proof.
  pose proof (build_datasets_succeeds_iff flip_rng (7, 12) tk0 0) as Hiff.
  split; [| split].
  - apply Hiff; [reflexivity |]. split.
    + repeat constructor; eexists; vm_compute; reflexivity.
    + right. vm_compute. reflexivity.
  - apply not_true_is_false. rewrite Hiff by reflexivity. intros [Hrows _].
    apply Forall_cons in Hrows as [_ Hrows].
    apply Forall_cons in Hrows as [[_ [target Htarget]] _].
    vm_compute in Htarget. discriminate.
  - apply not_true_is_false. rewrite Hiff by reflexivity. intros [_ [Hle | Hlt]].
    + vm_compute in Hle. by apply Hle.
    + vm_compute in Hlt. discriminate.
Defined.

(** X18: when the sizes allow the build but some raw row cannot be
    tokenized, the build stops with [KeyError] for [input] or [target]
    (the column is absent) or with [TypeError] (a [target] cell is not a
    string); when every row has both columns it is [TypeError]. *)
Theorem build_datasets_reports_malformed_rows rng seeds tk p val_set_size
    (rows : list DataPoint) :
  pad_token_id tk = Some p ->
  val_set_size <= 0 \/ val_set_size < len rows ->
  ~ Forall well_formed rows ->
  exists e,
    build_datasets rng seeds tk val_set_size rows = Raise e
    /\ (e = KeyError "input" \/ e = KeyError "target" \/ e = TypeError)
    /\ (Forall has_columns rows -> e = TypeError).
Proof.
  intros Hp Hsize Hrows.
  destruct (build_datasets rng seeds tk val_set_size rows) as [data|e] eqn:Hdata.
  { destruct Hrows.
    by destruct (build_datasets_ok_inv _ _ _ _ _ _ Hdata). }
  exists e. split; [done |].
  destruct (build_datasets_raises _ _ _ _ _ _ Hdata)
    as [(_ & Hpos & Hge) | (row & Hin & Hraise)]; [lia |].
  destruct (generate_and_tokenize_prompt_raises tk p row e Hp Hraise)
    as [[-> Hnone] | [[-> Hnone] | [-> Hnone]]].
  - split; [by left |]. intros Hcols.
    apply (proj1 (Forall_forall _ _) Hcols) in Hin as [[x Hx] _]. congruence.
  - split; [right; by left |]. intros Hcols.
    apply (proj1 (Forall_forall _ _) Hcols) in Hin as [_ [x Hx]]. congruence.
  - split; [right; by right | done].
Qed.

Lemma build_datasets_reports_malformed_rows_witness :
  build_datasets flip_rng (7, 12) tk0 1 [dp0; dp_null_target; dp2]
  = Raise TypeError.
Proof.
  destruct (build_datasets_reports_malformed_rows flip_rng (7, 12) tk0 0 1
              [dp0; dp_null_target; dp2]) as (e & Hbuild & _ & Htype).
  - reflexivity.
  - right. vm_compute. reflexivity.
  - intros Hrows. apply Forall_cons in Hrows as [_ Hrows].
    apply Forall_cons in Hrows as [[_ [target Htarget]] _].
    vm_compute in Htarget. discriminate.
  - rewrite Hbuild. f_equal. apply Htype.
    repeat constructor; eexists; vm_compute; reflexivity.
Defined.

Section RunExtras.
Context {Tensor : Type}.
Implicit Types (w : World Tensor).

(** X19: without any entry for the llama models in the import structure
    the run stops at once with [KeyError], not with the assertion and its
    guidance, and no library call is made. *)
Theorem main_without_llama_entry w :
  import_structure w !! "models.llama" = None ->
  main w = ([], Raise (KeyError "models.llama")).
Proof.
  intros Hnone. apply main_with_assertion_fails.
  by apply startup_assert_no_entry.
Qed.

(** X21: the trainer is given an evaluation set exactly when it is told to
    evaluate every 200 steps and to reload the best model at the end; with
    no evaluation set the evaluation strategy is ["no"]. *)
Theorem evaluation_settings_match_the_datasets val_set_size w args tr ev :
  Train args tr ev ∈ trace (main_with val_set_size w) ->
  (is_Some ev
   <-> evaluation_strategy args = "steps" /\ eval_steps args = Some 200
       /\ load_best_model_at_end args = true)
  /\ (ev = None
      <-> evaluation_strategy args = "no" /\ eval_steps args = None
          /\ load_best_model_at_end args = false).
Proof.
  intros Hin.
  destruct (main_with_train_inv _ _ _ _ _ Hin)
    as (cfg & data & _ & _ & Hdata & -> & _ & ->).
  cbn [evaluation_strategy eval_steps load_best_model_at_end training_arguments].
  destruct (Z.ltb_spec 0 val_set_size) as [Hpos | Hle].
  - destruct (build_datasets_split _ _ _ _ _ _ Hpos Hdata)
      as (sp & train & val & _ & _ & _ & ->).
    cbn [val_data]. split; split.
    + done.
    + intros _. by eexists.
    + discriminate.
    + intros (Hno & _). discriminate Hno.
  - destruct (build_datasets_no_split _ _ _ _ _ _ Hle Hdata) as (train & _ & ->).
    cbn [val_data]. split; split.
    + intros [x Hx]. discriminate Hx.
    + intros (Hsteps & _). discriminate Hsteps.
    + done.
    + done.
Qed.

(** X22: when the raw rows are pairwise distinct, no row of the training
    set is a row of the evaluation set. *)
Theorem train_and_validation_rows_are_disjoint val_set_size w args tr val row :
  NoDup (dataset_train w) ->
  Train args tr (Some val) ∈ trace (main_with val_set_size w) ->
  row ∈ tr.*1 -> row ∉ val.*1.
Proof.
  intros Hnodup Hin Hrow Hval.
  destruct (main_with_train_inv _ _ _ _ _ Hin)
    as (cfg & data & _ & _ & Hdata & _ & -> & Hev).
  pose proof (build_datasets_partition _ _ _ _ _ _ Hdata) as Hpart.
  rewrite <- Hev in Hpart. cbn [from_option id] in Hpart.
  rewrite <- Hpart in Hnodup. apply NoDup_app in Hnodup as (_ & Hdisj & _).
  by apply (Hdisj row).
Qed.

(** X23: every tokenized row handed to the trainer, for training or for
    evaluation, has [CUTOFF_LEN] input ids and an attention mask of as
    many ones. *)
Theorem rows_for_the_trainer_have_one_shape val_set_size w args tr ev row rec :
  Train args tr ev ∈ trace (main_with val_set_size w) ->
  (row, rec) ∈ tr ++ default [] ev ->
  len (input_ids rec) = CUTOFF_LEN
  /\ attention_mask rec = replicate (Z.to_nat CUTOFF_LEN) 1.
Proof.
  intros Hin Hrow.
  destruct (padding_positions_hold_zero _ _ _ _ _ _ _ Hin Hrow)
    as (_ & Hrec & input & target & Hinput & Htarget & _).
  rewrite (generate_and_tokenize_prompt_ok (script_tokenizer w) 0 row input target)
    in Hrec by done.
  injection Hrec as <-. cbn [input_ids attention_mask].
  unfold list_mul, len. rewrite full_tokens_length.
  split; [by apply Z2Nat.id |]. by rewrite Nat2Z.id.
Qed.

(** X24: replacing [state_dict] only drops entries of what the original
    returned, replacing it again changes nothing, and what
    [save_pretrained] writes is the same with and without it. *)
Theorem replace_state_dict_only_drops_entries (model : Model Tensor) :
  call_state_dict (replace_state_dict model) ⊆ call_state_dict model
  /\ call_state_dict (replace_state_dict (replace_state_dict model))
     = call_state_dict (replace_state_dict model)
  /\ saved_weights (replace_state_dict model) = saved_weights model.
Proof.
  unfold saved_weights, call_state_dict, replace_state_dict.
  cbn [state_dict parameters]. repeat split.
  - apply map_filter_subseteq.
  - apply get_peft_model_state_dict_idemp.
  - apply get_peft_model_state_dict_idemp.
Qed.

End RunExtras.

Lemma main_without_llama_entry_witness :
  main w_old = ([], Raise (KeyError "models.llama")).
Proof. apply main_without_llama_entry. vm_compute. reflexivity. Defined.

Lemma w_small_distinct : NoDup [dp0; dp1; dp2].
Proof. apply (bool_decide_unpack _). vm_compute. exact I. Qed.

Lemma evaluation_settings_match_the_datasets_witness :
  exists args tr ev,
    Train args tr ev ∈ trace (main_with 1 w_small)
    /\ is_Some ev /\ evaluation_strategy args = "steps".
Proof.
  destruct (w_small_trains w_small) as (args & tr & ev & Hin); try reflexivity.
  destruct (evaluation_settings_match_the_datasets 1 w_small args tr ev Hin)
    as [Hsome _].
  exists args, tr, ev. split; [exact Hin |].
  destruct (main_with_train_inv _ _ _ _ _ Hin) as (cfg & data & _ & _ & _ & -> & _).
  assert (evaluation_strategy (training_arguments 1 cfg) = "steps"
          /\ eval_steps (training_arguments 1 cfg) = Some 200
          /\ load_best_model_at_end (training_arguments 1 cfg) = true) as Hargs
    by done.
  split; [by apply Hsome | by destruct Hargs].
Defined.

Lemma train_and_validation_rows_are_disjoint_witness :
  exists args tr val,
    Train args tr (Some val) ∈ trace (main_with 1 w_small)
    /\ forall row, row ∈ tr.*1 -> row ∉ val.*1.
Proof.
  destruct (w_small_trains w_small) as (args & tr & ev & Hin); try reflexivity.
  destruct (main_with_train_inv _ _ _ _ _ Hin)
    as (cfg & data & _ & _ & Hdata & _ & _ & Hev).
  destruct (build_datasets_split _ _ _ _ _ _ Z.lt_0_1 Hdata)
    as (sp & train & val & _ & _ & _ & Hd).
  rewrite Hd in Hev. cbn [val_data] in Hev. rewrite Hev in Hin.
  exists args, tr, val. split; [exact Hin |]. intros row.
  apply (train_and_validation_rows_are_disjoint 1 w_small args tr val row);
    [exact w_small_distinct | exact Hin].
Defined.

Lemma rows_for_the_trainer_have_one_shape_witness :
  exists args tr ev,
    Train args tr ev ∈ trace (main_with 1 w_small)
    /\ forall row rec, (row, rec) ∈ tr ++ default [] ev -> len (input_ids rec) = 256.
Proof.
  destruct (w_small_trains w_small) as (args & tr & ev & Hin); try reflexivity.
  exists args, tr, ev. split; [exact Hin |]. intros row rec Hrow.
  by destruct (rows_for_the_trainer_have_one_shape 1 w_small args tr ev row rec
                 Hin Hrow).
Defined.
